(** * rightmo-trest-ui: the route guard, the dashboard and the product
      detail page, embedded from the TypeScript sources.

    Each React component is embedded as
    - a record for the values held by its [useState] cells,
    - one function per event handler, written in a small monad [Async]
      that threads the pending component state and a chronological
      trace of the effects the handler performs (HTTP requests,
      [window.confirm] prompts, navigations, console output), and
    - a [render] function from the state to a structured view that keeps
      the branches of the JSX.

    A handler is a closure: it reads the state cells captured by the
    render that created it and writes through the setters.  The captured
    state is therefore an explicit argument [c] of every handler, while
    the monad carries the state being written.  A handler is run to its
    end in one piece; the interleaving of two handlers awaiting the
    network at the same time is outside this model. *)

From Stdlib Require Import String Ascii ZArith List Bool Lia.
From stdpp Require Import base option gmap strings pretty.

Local Open Scope string_scope.
Local Open Scope Z_scope.

(* ================================================================== *)
(** ** JavaScript values used by the sources *)
(* ================================================================== *)

Module JS.

(** Truthiness of a string: only the empty string is falsy. *)
Definition truthy (s : string) : bool := negb (String.eqb s "").

(** Truthiness of a [string | null]: [null] and [""] are falsy. *)
Definition truthy_opt (o : option string) : bool :=
  match o with
  | Some s => truthy s
  | None => false
  end.

(** The value of a [string | null] when it is truthy. *)
Definition when_truthy (o : option string) : option string :=
  match o with
  | Some s => if truthy s then Some s else None
  | None => None
  end.

(** [a || d] for a string [a]. *)
Definition or_str (a d : string) : string := if truthy a then a else d.

(** [a || d] for [a : string | null | undefined]. *)
Definition or_else (a : option string) (d : string) : string :=
  match a with
  | Some s => or_str s d
  | None => d
  end.

(** [a && x] as React renders it for a string [a]: nothing when [a]
    is empty, [x] otherwise. *)
Definition and_then {A} (a : bool) (x : A) : option A :=
  if a then Some x else None.

(** [s.replace(pat, repl)] with a string pattern: only the first
    occurrence of [pat] is replaced.  (The replacement strings of the
    sources contain no [$] pattern.) *)
Definition replace (pat repl s : string) : string :=
  match String.index 0 pat s with
  | Some i =>
      String.substring 0 i s +:+ repl +:+
      String.substring (i + String.length pat)
                       (String.length s - (i + String.length pat)) s
  | None => s
  end.

(** [s.endsWith(suf)]. *)
Definition endsWith (suf s : string) : bool :=
  (String.length suf <=? String.length s)%nat &&
  String.eqb (String.substring (String.length s - String.length suf)
                               (String.length suf) s) suf.

(** [Number.MAX_SAFE_INTEGER]: up to it, in absolute value, every
    integer is a double, and so is its successor and its predecessor. *)
Definition MAX_SAFE_INTEGER : Z := 2 ^ 53 - 1.

(** [Number.isSafeInteger(n)] for an integer [n]. *)
Definition isSafeInteger (n : Z) : Prop :=
  - MAX_SAFE_INTEGER <= n <= MAX_SAFE_INTEGER.

End JS.

(* ================================================================== *)
(** ** Effects of an event handler *)
(* ================================================================== *)

Inductive Method := GET | POST | DELETE.

(** A file chosen in an [<input type="file">]; [data_url] is what a
    [FileReader] produces for it with [readAsDataURL]. *)
Record File := { file_name : string; data_url : string }.

(** A value of the [params] object handed to axios. *)
Inductive QueryValue :=
| QNum (n : Z)
| QStr (s : string).

(** An entry appended to a [FormData]. *)
Inductive FormValue :=
| FText (s : string)
| FFile (f : File).

Record Request := {
  method : Method;
  url : string;
  params : gmap string QueryValue;
  form : list (string * FormValue);
  headers : list (string * string)
}.

Inductive Effect :=
| EConfirm (message : string)
| ERequest (r : Request)
| ENavigate (to : string) (replace : bool)
| ELogout
| EConsoleError.

(** The effects that are HTTP requests. *)
Definition requests (t : list Effect) : list Request :=
  omap (fun e => match e with ERequest r => Some r | _ => None end) t.

(** What a rejected axios promise carries, as far as the sources look
    into it: [err.response?.data?.message]. *)
Record ErrorData := { message : option string }.
Record ErrorResponse := { error_data : option ErrorData }.
Record AxiosError := { response : option ErrorResponse }.

Inductive Reply (B : Type) :=
| Fulfilled (data : B)
| Rejected (err : AxiosError).
Arguments Fulfilled {B} data.
Arguments Rejected {B} err.

(** The world outside the component: the answer the user gives to a
    [window.confirm] prompt and the backend's reply to a request. *)
Record Env (B : Type) := {
  confirm : string -> bool;
  network : Request -> Reply B
}.
Arguments confirm {B} e _.
Arguments network {B} e _.

(** The component state being written and the effects so far, oldest
    first. *)
Record World (S : Type) := { st : S; trace : list Effect }.
Arguments st {S} w.
Arguments trace {S} w.
Arguments Build_World {S} st trace.

Inductive Completion (A : Type) :=
| Normal (a : A)
| Abrupt (err : AxiosError).
Arguments Normal {A} a.
Arguments Abrupt {A} err.

Section AsyncMonad.
Context {S B : Type}.

Definition Async (A : Type) : Type :=
  Env B -> World S -> Completion A * World S.

Definition ret {A} (a : A) : Async A := fun _ w => (Normal a, w).

Definition bind {A C} (m : Async A) (k : A -> Async C) : Async C :=
  fun env w =>
    match m env w with
    | (Normal a, w') => k a env w'
    | (Abrupt e, w') => (Abrupt e, w')
    end.

(** A state setter: [setX(v)]. *)
Definition set (f : S -> S) : Async unit :=
  fun _ w => (Normal tt, {| st := f (st w); trace := trace w |}).

Definition emit (e : Effect) : Async unit :=
  fun _ w => (Normal tt, {| st := st w; trace := trace w ++ [e] |}).

(** [await client(request)]: the request goes out, the backend's reply
    either resumes the handler with the response body or throws. *)
Definition await_request (r : Request) : Async B :=
  fun env w =>
    let w' := {| st := st w; trace := trace w ++ [ERequest r] |} in
    match network env r with
    | Fulfilled b => (Normal b, w')
    | Rejected e => (Abrupt e, w')
    end.

(** [window.confirm(message)]. *)
Definition window_confirm (msg : string) : Async bool :=
  fun env w =>
    (Normal (confirm env msg),
     {| st := st w; trace := trace w ++ [EConfirm msg] |}).

(** [try { body } catch (err) { handler(err) }]. *)
Definition try_catch {A} (body : Async A) (handler : AxiosError -> Async A)
  : Async A :=
  fun env w =>
    match body env w with
    | (Normal a, w') => (Normal a, w')
    | (Abrupt e, w') => handler e env w'
    end.

(** [try { body } finally { fin }] around a body that may already
    contain its [catch]. *)
Definition finally {A} (body : Async A) (fin : Async unit) : Async A :=
  fun env w =>
    match body env w with
    | (r, w') =>
        match fin env w' with
        | (Normal _, w'') => (r, w'')
        | (Abrupt e, w'') => (Abrupt e, w'')
        end
    end.

Definition run {A} (m : Async A) (env : Env B) (w : World S)
  : Completion A * World S := m env w.

End AsyncMonad.

Declare Scope async_scope.
Delimit Scope async_scope with async.
Notation "x <- m ;; k" := (bind m (fun x => k))
  (at level 100, m at next level, right associativity) : async_scope.
Notation "m ;; k" := (bind m (fun _ => k))
  (at level 100, right associativity) : async_scope.

(* ================================================================== *)
(** ** components/ProtectedRoute.tsx and routes/index.tsx *)
(* ================================================================== *)

Module Routing.

Inductive Page := Login | Dashboard | ProductDetail.

(** The JSX elements of the routing table. *)
Inductive Element :=
| PageElement (p : Page)
| ProtectedRoute (children : Element)
| Navigate (to : string) (replace : bool).

(** What [useAuth()] hands to the guard.  The context itself lives in
    contexts/AuthContext, of which the guard only uses these two
    fields. *)
Record AuthContextValue := { token : option string; isLoading : bool }.

(** What a component function returns. *)
Inductive Rendered :=
| LoadingPlaceholder (className text : string)
| Redirect (to : string) (replace : bool)
| Fragment (children : Element)
| Mounted (p : Page).

Definition renderProtectedRoute (auth : AuthContextValue)
    (children : Element) : Rendered :=
  if isLoading auth then LoadingPlaceholder "loading" "Loading..."
  else if negb (JS.truthy_opt (token auth)) then Redirect "/login" true
  else Fragment children.

Definition renderElement (auth : AuthContextValue) (e : Element)
  : Rendered :=
  match e with
  | PageElement p => Mounted p
  | ProtectedRoute children => renderProtectedRoute auth children
  | Navigate to replace => Redirect to replace
  end.

Record RouteConfig := { path : string; element : Element }.

Definition routes : list RouteConfig :=
  [ {| path := "/login"; element := PageElement Login |};
    {| path := "/dashboard";
       element := ProtectedRoute (PageElement Dashboard) |};
    {| path := "/products/:id";
       element := ProtectedRoute (PageElement ProductDetail) |};
    {| path := "/"; element := Navigate "/dashboard" true |} ].

(** The paths of the two protected pages. *)
Definition guarded_path (p : string) : bool :=
  String.eqb p "/dashboard" || String.eqb p "/products/:id".

End Routing.

(* ================================================================== *)
(** ** pages/Dashboard.tsx *)
(* ================================================================== *)

Module Dashboard.
Section Dashboard.

(** Prices and ratings are JavaScript numbers that the page only
    formats; the number type and [Number(x).toFixed(d)] are taken as
    given. *)
Context {Num : Type} (toFixed : nat -> Num -> string).

Record Product := {
  id : Z;
  name : string;
  category : string;
  price : Num;
  rating : Num;
  image : option string;
  description : string
}.

Record PaginationLinks := {
  first : string;
  last : string;
  prev : option string;
  next : option string
}.

Record ProductsResponse := {
  data : list Product;
  links : PaginationLinks;
  current_page : Z;
  last_page : Z;
  per_page : Z;
  total : Z
}.

(** The twelve [useState] cells.  The cells [category] and [total] are
    [category_filter] and [total_count] here, their names being taken
    by the fields of [Product] and [ProductsResponse]. *)
Record State := {
  products : list Product;
  loading : bool;
  error : string;
  search : string;
  category_filter : string;
  sortBy : string;
  sortOrder : string;
  minPrice : string;
  maxPrice : string;
  currentPage : Z;
  lastPage : Z;
  total_count : Z
}.

Definition initial : State :=
  {| products := []; loading := true; error := ""; search := "";
     category_filter := ""; sortBy := "created_at"; sortOrder := "desc";
     minPrice := ""; maxPrice := ""; currentPage := 1; lastPage := 1;
     total_count := 0 |}.

Definition setProducts v (s : State) : State :=
  {| products := v; loading := loading s; error := error s;
     search := search s; category_filter := category_filter s;
     sortBy := sortBy s; sortOrder := sortOrder s;
     minPrice := minPrice s; maxPrice := maxPrice s;
     currentPage := currentPage s; lastPage := lastPage s;
     total_count := total_count s |}.
Definition setLoading v (s : State) : State :=
  {| products := products s; loading := v; error := error s;
     search := search s; category_filter := category_filter s;
     sortBy := sortBy s; sortOrder := sortOrder s;
     minPrice := minPrice s; maxPrice := maxPrice s;
     currentPage := currentPage s; lastPage := lastPage s;
     total_count := total_count s |}.
Definition setError v (s : State) : State :=
  {| products := products s; loading := loading s; error := v;
     search := search s; category_filter := category_filter s;
     sortBy := sortBy s; sortOrder := sortOrder s;
     minPrice := minPrice s; maxPrice := maxPrice s;
     currentPage := currentPage s; lastPage := lastPage s;
     total_count := total_count s |}.
Definition setSearch v (s : State) : State :=
  {| products := products s; loading := loading s; error := error s;
     search := v; category_filter := category_filter s;
     sortBy := sortBy s; sortOrder := sortOrder s;
     minPrice := minPrice s; maxPrice := maxPrice s;
     currentPage := currentPage s; lastPage := lastPage s;
     total_count := total_count s |}.
Definition setCategory v (s : State) : State :=
  {| products := products s; loading := loading s; error := error s;
     search := search s; category_filter := v;
     sortBy := sortBy s; sortOrder := sortOrder s;
     minPrice := minPrice s; maxPrice := maxPrice s;
     currentPage := currentPage s; lastPage := lastPage s;
     total_count := total_count s |}.
Definition setSortBy v (s : State) : State :=
  {| products := products s; loading := loading s; error := error s;
     search := search s; category_filter := category_filter s;
     sortBy := v; sortOrder := sortOrder s;
     minPrice := minPrice s; maxPrice := maxPrice s;
     currentPage := currentPage s; lastPage := lastPage s;
     total_count := total_count s |}.
Definition setSortOrder v (s : State) : State :=
  {| products := products s; loading := loading s; error := error s;
     search := search s; category_filter := category_filter s;
     sortBy := sortBy s; sortOrder := v;
     minPrice := minPrice s; maxPrice := maxPrice s;
     currentPage := currentPage s; lastPage := lastPage s;
     total_count := total_count s |}.
Definition setMinPrice v (s : State) : State :=
  {| products := products s; loading := loading s; error := error s;
     search := search s; category_filter := category_filter s;
     sortBy := sortBy s; sortOrder := sortOrder s;
     minPrice := v; maxPrice := maxPrice s;
     currentPage := currentPage s; lastPage := lastPage s;
     total_count := total_count s |}.
Definition setMaxPrice v (s : State) : State :=
  {| products := products s; loading := loading s; error := error s;
     search := search s; category_filter := category_filter s;
     sortBy := sortBy s; sortOrder := sortOrder s;
     minPrice := minPrice s; maxPrice := v;
     currentPage := currentPage s; lastPage := lastPage s;
     total_count := total_count s |}.
Definition setCurrentPage v (s : State) : State :=
  {| products := products s; loading := loading s; error := error s;
     search := search s; category_filter := category_filter s;
     sortBy := sortBy s; sortOrder := sortOrder s;
     minPrice := minPrice s; maxPrice := maxPrice s;
     currentPage := v; lastPage := lastPage s;
     total_count := total_count s |}.
Definition setLastPage v (s : State) : State :=
  {| products := products s; loading := loading s; error := error s;
     search := search s; category_filter := category_filter s;
     sortBy := sortBy s; sortOrder := sortOrder s;
     minPrice := minPrice s; maxPrice := maxPrice s;
     currentPage := currentPage s; lastPage := v;
     total_count := total_count s |}.
Definition setTotal v (s : State) : State :=
  {| products := products s; loading := loading s; error := error s;
     search := search s; category_filter := category_filter s;
     sortBy := sortBy s; sortOrder := sortOrder s;
     minPrice := minPrice s; maxPrice := maxPrice s;
     currentPage := currentPage s; lastPage := lastPage s;
     total_count := v |}.

Definition categories : list string :=
  ["Electronics"; "Clothing"; "Books"; "Home & Garden"; "Sports"; "Toys"].

Local Open Scope async_scope.

Definition M := @Async State ProductsResponse.

(** [if (v) params[key] = v;] *)
Definition add_if_set (key v : string) (params : gmap string QueryValue)
  : gmap string QueryValue :=
  if JS.truthy v then <[key := QStr v]> params else params.

(** The [params] object built at the top of the [try] block. *)
Definition build_params (c : State) : gmap string QueryValue :=
  let params := <["per_page" := QNum 12]> (<["page" := QNum (currentPage c)]> ∅) in
  let params := add_if_set "search" (search c) params in
  let params := add_if_set "category" (category_filter c) params in
  let params := add_if_set "sort_by" (sortBy c) params in
  let params := add_if_set "sort_order" (sortOrder c) params in
  let params := add_if_set "min_price" (minPrice c) params in
  let params := add_if_set "max_price" (maxPrice c) params in
  params.

Definition products_request (c : State) : Request :=
  {| method := GET; url := "http://localhost:8000/api/products";
     params := build_params c; form := []; headers := [] |}.

Definition fetchProducts (c : State) : M unit :=
  set (setLoading true) ;;
  set (setError "") ;;
  finally
    (try_catch
       (response <- await_request (products_request c) ;;
        set (setProducts (data response)) ;;
        set (setCurrentPage (current_page response)) ;;
        set (setLastPage (last_page response)) ;;
        set (setTotal (total response)))
       (fun err =>
          set (setError "Failed to fetch products") ;;
          emit EConsoleError))
    (set (setLoading false)).

Definition handleLogout : M unit :=
  emit ELogout ;;
  emit (ENavigate "/login" false).

Definition handleSearchChange (value : string) : M unit :=
  set (setSearch value) ;;
  set (setCurrentPage 1).

Definition handleCategoryChange (value : string) : M unit :=
  set (setCategory value) ;;
  set (setCurrentPage 1).

Definition handleSortChange (value : string) : M unit :=
  set (setSortBy value) ;;
  set (setCurrentPage 1).

Definition handleSortOrderChange (value : string) : M unit :=
  set (setSortOrder value) ;;
  set (setCurrentPage 1).

Definition handleMinPriceChange (value : string) : M unit :=
  set (setMinPrice value) ;;
  set (setCurrentPage 1).

Definition handleMaxPriceChange (value : string) : M unit :=
  set (setMaxPrice value) ;;
  set (setCurrentPage 1).

Definition clearFilters : M unit :=
  set (setSearch "") ;;
  set (setCategory "") ;;
  set (setSortBy "created_at") ;;
  set (setSortOrder "desc") ;;
  set (setMinPrice "") ;;
  set (setMaxPrice "") ;;
  set (setCurrentPage 1).

Definition getImageUrl (image : option string) : string :=
  match JS.when_truthy image with
  | None => "https://via.placeholder.com/300x200?text=No+Image"
  | Some image => "http://localhost:8000/storage/" +:+ image
  end.

(** The six inputs whose change handlers the filters section wires. *)
Inductive FilterInput :=
| SearchInput | CategorySelect | SortBySelect | SortOrderSelect
| MinPriceInput | MaxPriceInput.

Definition onChange (i : FilterInput) (value : string) : M unit :=
  match i with
  | SearchInput => handleSearchChange value
  | CategorySelect => handleCategoryChange value
  | SortBySelect => handleSortChange value
  | SortOrderSelect => handleSortOrderChange value
  | MinPriceInput => handleMinPriceChange value
  | MaxPriceInput => handleMaxPriceChange value
  end.

(** *** The rendered page *)

Record Card := {
  card_target : string;      (* where a click navigates *)
  card_image : string;
  card_name : string;
  card_category : string;
  card_price : string;
  card_rating : string
}.

Record PaginationView := {
  previous_disabled : bool;
  previous_target : Z;       (* page set by clicking Previous *)
  page_of : Z * Z;           (* "Page {currentPage} of {lastPage}" *)
  next_disabled : bool;
  next_target : Z            (* page set by clicking Next *)
}.

Record Filters := {
  search_value : string;
  category_value : string;
  category_options : list string;
  sort_by_value : string;
  sort_order_value : string;
  min_price_value : string;
  max_price_value : string
}.

Inductive Body :=
| LoadingProducts
| Loaded (showing : nat) (of_total : Z) (grid : list Card)
         (no_products : bool) (pagination : option PaginationView).

Record View := {
  filters : Filters;
  error_message : option string;
  body : Body
}.

(** [id] is printed in full, as JavaScript prints an integer below
    [1e21]. *)
Definition renderCard (p : Product) : Card :=
  {| card_target := "/products/" +:+ pretty (id p);
     card_image := getImageUrl (image p);
     card_name := name p;
     card_category := category p;
     card_price := "$" +:+ toFixed 2 (price p);
     card_rating := "⭐ " +:+ toFixed 1 (rating p) |}.

Definition renderPagination (s : State) : PaginationView :=
  {| previous_disabled := Z.eqb (currentPage s) 1;
     previous_target := currentPage s - 1;
     page_of := (currentPage s, lastPage s);
     next_disabled := Z.eqb (currentPage s) (lastPage s);
     next_target := currentPage s + 1 |}.

Definition render (s : State) : View :=
  {| filters :=
       {| search_value := search s;
          category_value := category_filter s;
          category_options := "" :: categories;
          sort_by_value := sortBy s;
          sort_order_value := sortOrder s;
          min_price_value := minPrice s;
          max_price_value := maxPrice s |};
     error_message := JS.and_then (JS.truthy (error s)) (error s);
     body :=
       if loading s then LoadingProducts
       else Loaded (List.length (products s)) (total_count s)
                   (map renderCard (products s))
                   ((List.length (products s) =? 0)%nat && negb (loading s))
                   (JS.and_then (1 <? lastPage s) (renderPagination s)) |}.

(** The pagination block of a rendered dashboard, when there is one. *)
Definition shown_pagination (v : View) : option PaginationView :=
  match body v with
  | LoadingProducts => None
  | Loaded _ _ _ _ pagination => pagination
  end.

(** Reading of a request: [key] is sent with [value] when [value] is not empty and is left
    out otherwise. *)
Definition sent_iff_set (params : gmap string QueryValue)
    (key value : string) : Prop :=
  (value <> "" -> params !! key = Some (QStr value)) /\
  (value = "" -> params !! key = None).

(** *** The effect that fetches *)

(** The dependency array of the effect: the cells whose change makes
    React run it again.  React compares each entry with [Object.is],
    which on strings and on the integers used for pages is equality. *)
Definition deps (s : State)
  : string * string * string * string * string * string * Z :=
  (search s, category_filter s, sortBy s, sortOrder s, minPrice s,
   maxPrice s, currentPage s).

(** [useEffect(() => { fetchProducts(); }, [...])] after the render that
    committed [s]; [previous] is the state of the render before it,
    [None] on mount. *)
Definition useEffect (previous : option State) (s : State) : M unit :=
  match previous with
  | None => fetchProducts s
  | Some p => if bool_decide (deps p = deps s) then ret tt else fetchProducts s
  end.

(** [value={search}] and its siblings: what a filter input displays. *)
Definition input_value (s : State) (i : FilterInput) : string :=
  match i with
  | SearchInput => search s
  | CategorySelect => category_filter s
  | SortBySelect => sortBy s
  | SortOrderSelect => sortOrder s
  | MinPriceInput => minPrice s
  | MaxPriceInput => maxPrice s
  end.

(** The [onClick] of the Previous and of the Next button.  The source
    computes [currentPage - 1] and [currentPage + 1] on doubles; the
    integer difference and sum written here are their values as long
    as [currentPage] is a safe integer, which the statements about
    these handlers assume. *)
Definition previousPage (c : State) : M unit :=
  set (setCurrentPage (currentPage c - 1)).

Definition nextPage (c : State) : M unit :=
  set (setCurrentPage (currentPage c + 1)).

(** The names a products request may carry. *)
Definition param_names : list string :=
  ["page"; "per_page"; "search"; "category"; "sort_by"; "sort_order";
   "min_price"; "max_price"].

(** The "No products found" block of a rendered dashboard. *)
Definition shown_no_products (v : View) : bool :=
  match body v with
  | LoadingProducts => false
  | Loaded _ _ _ no_products _ => no_products
  end.

(** The cards of a rendered dashboard. *)
Definition shown_grid (v : View) : list Card :=
  match body v with
  | LoadingProducts => []
  | Loaded _ _ grid _ _ => grid
  end.

End Dashboard.
End Dashboard.

(* ================================================================== *)
(** ** pages/ProductDetail.tsx *)
(* ================================================================== *)

Module ProductDetail.
Section ProductDetail.

(** As on the dashboard, prices and ratings are only converted to
    text: [n.toString()], [Number(n).toFixed(d)].  Dates are shown
    with [new Date(s).toLocaleDateString()].  The build-time variable
    [import.meta.env.VITE_API_BASE_URL] may be unset. *)
Context {Num : Type}
        (toString : Num -> string)
        (toFixed : nat -> Num -> string)
        (toLocaleDateString : string -> string)
        (VITE_API_BASE_URL : option string).

(** [price] and [rating] are read with [?.], so the page expects
    that they can be missing; [Number(undefined).toFixed(d)] is
    ["NaN"].  [None] is such a missing field; a JSON [null], which
    [Number] turns into 0, is not among the values of these fields. *)
Record Product := {
  id : Z;
  name : string;
  category : string;
  price : option Num;
  rating : option Num;
  image : option string;
  image_url : option string;
  description : string;
  created_at : string;
  updated_at : string
}.

(** The two response shapes the page accepts: [{ data: product }] and
    the product itself. *)
Inductive ProductBody :=
| Wrapped (p : Product)
| Bare (p : Product).

(** [response.data.data || response.data] *)
Definition unwrap (b : ProductBody) : Product :=
  match b with
  | Wrapped p => p
  | Bare p => p
  end.

Record FormData := {
  form_name : string;
  form_category : string;
  form_price : string;
  form_rating : string;
  form_description : string
}.

Record State := {
  product : option Product;
  loading : bool;
  error : string;
  isEditing : bool;
  formData : FormData;
  imageFile : option File;
  imagePreview : option string
}.

Definition initial : State :=
  {| product := None; loading := true; error := ""; isEditing := false;
     formData := {| form_name := ""; form_category := ""; form_price := "";
                    form_rating := ""; form_description := "" |};
     imageFile := None; imagePreview := None |}.

Definition setProduct v (s : State) : State :=
  {| product := v; loading := loading s; error := error s;
     isEditing := isEditing s; formData := formData s;
     imageFile := imageFile s; imagePreview := imagePreview s |}.
Definition setLoading v (s : State) : State :=
  {| product := product s; loading := v; error := error s;
     isEditing := isEditing s; formData := formData s;
     imageFile := imageFile s; imagePreview := imagePreview s |}.
Definition setError v (s : State) : State :=
  {| product := product s; loading := loading s; error := v;
     isEditing := isEditing s; formData := formData s;
     imageFile := imageFile s; imagePreview := imagePreview s |}.
Definition setIsEditing v (s : State) : State :=
  {| product := product s; loading := loading s; error := error s;
     isEditing := v; formData := formData s;
     imageFile := imageFile s; imagePreview := imagePreview s |}.
Definition setFormData v (s : State) : State :=
  {| product := product s; loading := loading s; error := error s;
     isEditing := isEditing s; formData := v;
     imageFile := imageFile s; imagePreview := imagePreview s |}.
Definition setImageFile v (s : State) : State :=
  {| product := product s; loading := loading s; error := error s;
     isEditing := isEditing s; formData := formData s;
     imageFile := v; imagePreview := imagePreview s |}.
Definition setImagePreview v (s : State) : State :=
  {| product := product s; loading := loading s; error := error s;
     isEditing := isEditing s; formData := formData s;
     imageFile := imageFile s; imagePreview := v |}.

Local Open Scope async_scope.

Definition M := @Async State ProductBody.

Definition product_url (id : string) : string := "/products/" +:+ id.

Definition get_request (id : string) : Request :=
  {| method := GET; url := product_url id; params := ∅; form := [];
     headers := [] |}.

(** [n?.toString() || '0'] *)
Definition number_field (n : option Num) : string :=
  JS.or_else (toString <$> n) "0".

Definition draft_of (productData : Product) : FormData :=
  {| form_name := JS.or_str (name productData) "";
     form_category := JS.or_str (category productData) "";
     form_price := number_field (price productData);
     form_rating := number_field (rating productData);
     form_description := JS.or_str (description productData) "" |}.

(** [id] is the path parameter read with [useParams]. *)
Definition fetchProduct (id : string) : M unit :=
  set (setLoading true) ;;
  set (setError "") ;;
  finally
    (try_catch
       (response <- await_request (get_request id) ;;
        let productData := unwrap response in
        set (setProduct (Some productData)) ;;
        set (setFormData (draft_of productData)))
       (fun err =>
          set (setError "Failed to fetch product") ;;
          emit EConsoleError))
    (set (setLoading false)).

(** The [name] attributes of the form's inputs. *)
Inductive FieldName :=
| name_field | category_field | price_field | rating_field
| description_field.

(** [{ ...formData, [e.target.name]: e.target.value }] *)
Definition with_field (d : FormData) (f : FieldName) (value : string)
  : FormData :=
  match f with
  | name_field =>
      {| form_name := value; form_category := form_category d;
         form_price := form_price d; form_rating := form_rating d;
         form_description := form_description d |}
  | category_field =>
      {| form_name := form_name d; form_category := value;
         form_price := form_price d; form_rating := form_rating d;
         form_description := form_description d |}
  | price_field =>
      {| form_name := form_name d; form_category := form_category d;
         form_price := value; form_rating := form_rating d;
         form_description := form_description d |}
  | rating_field =>
      {| form_name := form_name d; form_category := form_category d;
         form_price := form_price d; form_rating := value;
         form_description := form_description d |}
  | description_field =>
      {| form_name := form_name d; form_category := form_category d;
         form_price := form_price d; form_rating := form_rating d;
         form_description := value |}
  end.

Definition handleInputChange (c : State) (f : FieldName) (value : string)
  : M unit :=
  set (setFormData (with_field (formData c) f value)).

(** [e.target.files?.[0]] is [file]; the reader's [onloadend] is run
    at once. *)
Definition handleImageChange (file : option File) : M unit :=
  match file with
  | Some f =>
      set (setImageFile (Some f)) ;;
      set (setImagePreview (Some (data_url f)))
  | None => ret tt
  end.

(** The multipart body assembled by [handleUpdate]. *)
Definition formDataToSend (c : State) : list (string * FormValue) :=
  [ ("name", FText (form_name (formData c)));
    ("category", FText (form_category (formData c)));
    ("price", FText (form_price (formData c)));
    ("rating", FText (form_rating (formData c)));
    ("description", FText (form_description (formData c))) ]
  ++ match imageFile c with
     | Some f => [("image", FFile f)]
     | None => []
     end
  ++ [("_method", FText "PUT")].

Definition update_request (id : string) (c : State) : Request :=
  {| method := POST; url := product_url id; params := ∅;
     form := formDataToSend c;
     headers := [("Content-Type", "multipart/form-data")] |}.

(** [err.response?.data?.message] *)
Definition backend_message (err : AxiosError) : option string :=
  r ← response err; d ← error_data r; message d.

Definition handleUpdate (id : string) (c : State) : M unit :=
  set (setError "") ;;
  try_catch
    (response <- await_request (update_request id c) ;;
     let updatedProduct := unwrap response in
     set (setProduct (Some updatedProduct)) ;;
     set (setIsEditing false) ;;
     set (setImageFile None) ;;
     set (setImagePreview None) ;;
     fetchProduct id)
    (fun err =>
       set (setError (JS.or_else (backend_message err)
                                 "Failed to update product")) ;;
       emit EConsoleError).

Definition delete_prompt : string :=
  "Are you sure you want to delete this product?".

Definition delete_request (id : string) : Request :=
  {| method := DELETE; url := product_url id; params := ∅; form := [];
     headers := [] |}.

Definition handleDelete (id : string) : M unit :=
  confirmed <- window_confirm delete_prompt ;;
  if negb confirmed then ret tt
  else
    try_catch
      (_ <- await_request (delete_request id) ;;
       emit (ENavigate "/dashboard" false))
      (fun err =>
         set (setError "Failed to delete product") ;;
         emit EConsoleError).

Definition getImageUrl (imageUrl imagePath : option string) : string :=
  match JS.when_truthy imageUrl with
  | Some imageUrl => imageUrl
  | None =>
      match JS.when_truthy imagePath with
      | None => "https://via.placeholder.com/600x400?text=No+Image"
      | Some imagePath =>
          let baseUrl :=
            JS.or_else (JS.replace "/api" "" <$> VITE_API_BASE_URL)
                       "http://localhost:8000" in
          baseUrl +:+ "/storage/" +:+ imagePath
      end
  end.

Definition categories : list string :=
  ["Electronics"; "Clothing"; "Books"; "Home & Garden"; "Sports"; "Toys"].

(** Inline handlers of the header and of the Cancel button. *)
Definition backToDashboard : M unit := emit (ENavigate "/dashboard" false).

Definition startEditing : M unit := set (setIsEditing true).

Definition cancelEditing : M unit :=
  set (setIsEditing false) ;;
  set (setImageFile None) ;;
  set (setImagePreview None).

(** *** The rendered page *)

Record Content := {
  image_src : string;
  shown_name : string;
  category_badge : string;
  shown_price : string;
  shown_rating : string;
  shown_description : string;
  shown_created : string;
  shown_updated : string
}.

Record EditForm := {
  draft : FormData;
  category_options : list string;
  image_preview : option string   (* src of the preview, when rendered *)
}.

Inductive Main :=
| ContentView (v : Content)
| EditView (f : EditForm).

Inductive View :=
| LoadingProduct
| ProductNotFound
| Detail (action_buttons : bool) (error_message : option string)
         (main : Main).

Definition renderContent (p : Product) : Content :=
  {| image_src := getImageUrl (image_url p) (image p);
     shown_name := name p;
     category_badge := category p;
     shown_price :=
       "$" +:+ default "NaN" (toFixed 2 <$> price p);
     shown_rating :=
       "⭐ " +:+ default "NaN" (toFixed 1 <$> rating p) +:+ " / 5.0";
     shown_description :=
       JS.or_str (description p) "No description available.";
     shown_created := toLocaleDateString (created_at p);
     shown_updated := toLocaleDateString (updated_at p) |}.

Definition renderEditForm (s : State) (p : Product) : EditForm :=
  {| draft := formData s;
     category_options := categories;
     image_preview :=
       JS.and_then
         (JS.truthy_opt (imagePreview s) || JS.truthy_opt (image p))
         (JS.or_else (imagePreview s)
                     (getImageUrl (image_url p) (image p))) |}.

Definition render (s : State) : View :=
  if loading s then LoadingProduct
  else match product s with
       | None => ProductNotFound
       | Some p =>
           Detail (negb (isEditing s))
                  (JS.and_then (JS.truthy (error s)) (error s))
                  (if negb (isEditing s)
                   then ContentView (renderContent p)
                   else EditView (renderEditForm s p))
       end.

(** *** Reading a rendered page *)

(** The text of the error banner, when it is on screen. *)
Definition shown_error (v : View) : option string :=
  match v with
  | Detail _ error_message _ => error_message
  | _ => None
  end.

(** The [src] of the large image of the view mode. *)
Definition shown_image (v : View) : option string :=
  match v with
  | Detail _ _ (ContentView content) => Some (image_src content)
  | _ => None
  end.

(** The [src] of the preview of the edit form, when it is rendered. *)
Definition shown_preview (v : View) : option string :=
  match v with
  | Detail _ _ (EditView f) => image_preview f
  | _ => None
  end.

(** *** The image rule in the words of the specification *)

(** Modelled from the spec: config/api.ts, which configures the shared
    client, is not among the sources.  Its base URL is the
    environment-supplied value and defaults to the local development
    host, [http://localhost:8000/api]. *)
Definition configuredApiBaseUrl : string :=
  JS.or_else VITE_API_BASE_URL "http://localhost:8000/api".

(** The storage base URL as the specification words it: the API base
    URL with a trailing [/api] suffix stripped. *)
Definition strip_trailing_api (apiBaseUrl : string) : string :=
  if JS.endsWith "/api" apiBaseUrl
  then String.substring 0 (String.length apiBaseUrl - 4) apiBaseUrl
  else apiBaseUrl.

(** The image URL as the specification words it. *)
Definition specified_image_url (p : Product) : string :=
  match JS.when_truthy (image_url p) with
  | Some imageUrl => imageUrl
  | None =>
      match JS.when_truthy (image p) with
      | Some imagePath =>
          strip_trailing_api configuredApiBaseUrl +:+ "/storage/" +:+ imagePath
      | None => "https://via.placeholder.com/600x400?text=No+Image"
      end
  end.

(** *** Reading the draft *)

(** [value={formData.name}] and its siblings: the draft text an input
    of the edit form displays. *)
Definition field_value (d : FormData) (f : FieldName) : string :=
  match f with
  | name_field => form_name d
  | category_field => form_category d
  | price_field => form_price d
  | rating_field => form_rating d
  | description_field => form_description d
  end.

(** The edit form of a rendered page, when it is on screen. *)
Definition shown_form (v : View) : option EditForm :=
  match v with
  | Detail _ _ (EditView f) => Some f
  | _ => None
  end.

(** Whether the Edit and Delete buttons are on screen. *)
Definition shown_actions (v : View) : bool :=
  match v with
  | Detail action_buttons _ _ => action_buttons
  | _ => false
  end.

End ProductDetail.
End ProductDetail.

(* ================================================================== *)
(** ** Concrete pages used to exercise the statements *)
(* ================================================================== *)

Module Examples.

(** Whole numbers stand for the JavaScript numbers: [(20).toString()] is
    ["20"] and [(20).toFixed(2)] is ["20.00"]. *)
Definition toString (n : Z) : string := pretty n.

Fixpoint zeros (d : nat) : string :=
  match d with
  | O => ""
  | S d' => "0" +:+ zeros d'
  end.

Definition toFixed (d : nat) (n : Z) : string :=
  match d with
  | O => pretty n
  | S _ => pretty n +:+ "." +:+ zeros d
  end.

Definition toLocaleDateString (s : string) : string := s.

(** A product with a stored image path only. *)
Definition lamp : @ProductDetail.Product Z :=
  {| ProductDetail.id := 7;
     ProductDetail.name := "Lamp";
     ProductDetail.category := "Home & Garden";
     ProductDetail.price := Some 20;
     ProductDetail.rating := Some 4;
     ProductDetail.image := Some "abc.png";
     ProductDetail.image_url := None;
     ProductDetail.description := "";
     ProductDetail.created_at := "2024-01-01T00:00:00Z";
     ProductDetail.updated_at := "2024-01-02T00:00:00Z" |}.

(** A product with an absolute image URL only. *)
Definition poster : @ProductDetail.Product Z :=
  {| ProductDetail.id := 8;
     ProductDetail.name := "Poster";
     ProductDetail.category := "Books";
     ProductDetail.price := Some 5;
     ProductDetail.rating := Some 3;
     ProductDetail.image := None;
     ProductDetail.image_url := Some "https://x/y.png";
     ProductDetail.description := "A poster";
     ProductDetail.created_at := "2024-01-01T00:00:00Z";
     ProductDetail.updated_at := "2024-01-02T00:00:00Z" |}.

(** The detail page showing [p], in view mode. *)
Definition viewing (p : @ProductDetail.Product Z) : @ProductDetail.State Z :=
  {| ProductDetail.product := Some p;
     ProductDetail.loading := false;
     ProductDetail.error := "";
     ProductDetail.isEditing := false;
     ProductDetail.formData := ProductDetail.draft_of toString p;
     ProductDetail.imageFile := None;
     ProductDetail.imagePreview := None |}.

(** The detail page editing [p], no replacement file chosen. *)
Definition editing (p : @ProductDetail.Product Z) : @ProductDetail.State Z :=
  ProductDetail.setIsEditing true (viewing p).

Definition validation_error : AxiosError :=
  {| response :=
       Some {| error_data :=
                 Some {| message := Some "The name field is required." |} |} |}.

(** A user who confirms and a backend that answers every request with
    the wrapped product [p]. *)
Definition accepting (p : @ProductDetail.Product Z)
  : Env (@ProductDetail.ProductBody Z) :=
  {| confirm := fun _ => true;
     network := fun _ => Fulfilled (ProductDetail.Wrapped p) |}.

(** A user who confirms and a backend that rejects every request. *)
Definition rejecting : Env (@ProductDetail.ProductBody Z) :=
  {| confirm := fun _ => true;
     network := fun _ => Rejected validation_error |}.

(** A user who declines the prompt. *)
Definition declining : Env (@ProductDetail.ProductBody Z) :=
  {| confirm := fun _ => false;
     network := fun _ => Rejected validation_error |}.

(** A dashboard on page 3 of 5 with a search text, and a backend that
    is down. *)
Definition browsing : @Dashboard.State Z :=
  {| Dashboard.products := [];
     Dashboard.loading := false;
     Dashboard.error := "";
     Dashboard.search := "lamp";
     Dashboard.category_filter := "";
     Dashboard.sortBy := "created_at";
     Dashboard.sortOrder := "desc";
     Dashboard.minPrice := "";
     Dashboard.maxPrice := "";
     Dashboard.currentPage := 3;
     Dashboard.lastPage := 5;
     Dashboard.total_count := 50 |}.

Definition backend_down : Env (@Dashboard.ProductsResponse Z) :=
  {| confirm := fun _ => false;
     network := fun _ => Rejected {| response := None |} |}.

(** A second page of results and a backend that serves it. *)
Definition mug : @Dashboard.Product Z :=
  {| Dashboard.id := 12;
     Dashboard.name := "Mug";
     Dashboard.category := "Home & Garden";
     Dashboard.price := 9;
     Dashboard.rating := 4;
     Dashboard.image := Some "mug.png";
     Dashboard.description := "" |}.

Definition page_two : @Dashboard.ProductsResponse Z :=
  {| Dashboard.data := [mug];
     Dashboard.links :=
       {| Dashboard.first := "/api/products?page=1";
          Dashboard.last := "/api/products?page=2";
          Dashboard.prev := Some "/api/products?page=1";
          Dashboard.next := None |};
     Dashboard.current_page := 2;
     Dashboard.last_page := 2;
     Dashboard.per_page := 12;
     Dashboard.total := 13 |}.

Definition serving (r : @Dashboard.ProductsResponse Z)
  : Env (@Dashboard.ProductsResponse Z) :=
  {| confirm := fun _ => false; network := fun _ => Fulfilled r |}.

(** A dashboard whose last fetch failed, with every filter in use. *)
Definition filtered : @Dashboard.State Z :=
  {| Dashboard.products := [mug];
     Dashboard.loading := false;
     Dashboard.error := "Failed to fetch products";
     Dashboard.search := "mug";
     Dashboard.category_filter := "Home & Garden";
     Dashboard.sortBy := "price";
     Dashboard.sortOrder := "asc";
     Dashboard.minPrice := "5";
     Dashboard.maxPrice := "50";
     Dashboard.currentPage := 2;
     Dashboard.lastPage := 2;
     Dashboard.total_count := 13 |}.

(** A backend that saves, answering with the bare product [p], and then
    rejects every other request. *)
Definition saving_only (p : @ProductDetail.Product Z)
  : Env (@ProductDetail.ProductBody Z) :=
  {| confirm := fun _ => true;
     network := fun r =>
       match method r with
       | POST => Fulfilled (ProductDetail.Bare p)
       | _ => Rejected validation_error
       end |}.

Definition photo : File :=
  {| file_name := "lamp.jpg"; data_url := "data:image/jpeg;base64,AAAA" |}.

End Examples.

(* ================================================================== *)
(** ** Properties of the route guard *)
(* ================================================================== *)

Section RoutingProperties.
Import Routing.

Lemma guarded_routes_wrap_a_page (r : RouteConfig) :
  In r routes -> guarded_path (path r) = true ->
  exists page, element r = ProtectedRoute (PageElement page).
Proof.
  unfold routes. simpl.
  intros [<- | [<- | [<- | [<- | []]]]] Hg; simpl in Hg;
    try discriminate; eexists; reflexivity.
Qed.

(** C1: for every entry of the routing table whose path is /dashboard
    or /products/:id the element is a page wrapped in the guard, and
    the guard renders only the loading placeholder while the
    authentication context is loading; once loading is over it
    redirects to /login with [replace] when the token is absent
    ([null], or the empty string, which JavaScript treats alike) and
    otherwise returns the wrapped page unchanged. *)
Theorem protected_route_guard (r : RouteConfig) (auth : AuthContextValue) :
  In r routes -> guarded_path (path r) = true ->
  exists page,
    element r = ProtectedRoute (PageElement page) /\
    (isLoading auth = true ->
     renderElement auth (element r)
     = LoadingPlaceholder "loading" "Loading...") /\
    (isLoading auth = false -> JS.when_truthy (token auth) = None ->
     renderElement auth (element r) = Redirect "/login" true) /\
    (isLoading auth = false ->
     forall t, JS.when_truthy (token auth) = Some t ->
     renderElement auth (element r) = Fragment (PageElement page)).
Proof.
  intros Hin Hg.
  destruct (guarded_routes_wrap_a_page r Hin Hg) as [page Hel].
  exists page. rewrite Hel. simpl. unfold renderProtectedRoute.
  destruct auth as [tok ld]; simpl.
  repeat split.
  - intros ->. reflexivity.
  - intros -> Htok. unfold JS.truthy_opt.
    destruct tok as [t|]; simpl in *; [|reflexivity].
    destruct (JS.truthy t); [discriminate|reflexivity].
  - intros -> t Htok. unfold JS.truthy_opt.
    destruct tok as [t'|]; simpl in *; [|discriminate].
    destruct (JS.truthy t'); [reflexivity|discriminate].
Qed.

Lemma protected_route_guard_witness :
  renderElement {| token := Some "secret"; isLoading := false |}
                (ProtectedRoute (PageElement Dashboard))
  = Fragment (PageElement Dashboard)
  /\ renderElement {| token := None; isLoading := false |}
                   (ProtectedRoute (PageElement Dashboard))
     = Redirect "/login" true.
Proof.
  pose (r := {| path := "/dashboard";
                element := ProtectedRoute (PageElement Dashboard) |}).
  assert (Hin : In r routes) by (simpl; auto).
  assert (Hg : guarded_path (path r) = true) by reflexivity.
  split.
  - destruct (protected_route_guard
                r {| token := Some "secret"; isLoading := false |} Hin Hg)
      as (page & Hel & _ & _ & Hok).
    injection Hel as <-.
    exact (Hok eq_refl "secret" eq_refl).
  - destruct (protected_route_guard
                r {| token := None; isLoading := false |} Hin Hg)
      as (page & Hel & _ & Hno & _).
    exact (Hno eq_refl eq_refl).
Defined.

End RoutingProperties.

(* ================================================================== *)
(** ** Properties of the dashboard *)
(* ================================================================== *)

Section DashboardProperties.
Import Dashboard.
Context {Num : Type} (toFixed : nat -> Num -> string).

Abbreviation State := (@State Num).
Abbreviation Env := (Env (@ProductsResponse Num)).

Lemma truthy_true (s : string) : JS.truthy s = true <-> s <> "".
Proof.
  unfold JS.truthy. rewrite negb_true_iff.
  split.
  - intros H ->. discriminate.
  - intros H. apply String.eqb_neq. exact H.
Qed.

Lemma truthy_false (s : string) : JS.truthy s = false <-> s = "".
Proof.
  unfold JS.truthy. rewrite negb_false_iff. apply String.eqb_eq.
Qed.

Lemma add_if_set_other key v k (params : gmap string QueryValue) :
  k <> key -> add_if_set key v params !! k = params !! k.
Proof.
  intros Hne. unfold add_if_set.
  destruct (JS.truthy v); [|reflexivity].
  apply lookup_insert_ne. congruence.
Qed.

Lemma add_if_set_same key v (params : gmap string QueryValue) :
  params !! key = None -> sent_iff_set (add_if_set key v params) key v.
Proof.
  intros Hnone. unfold add_if_set, sent_iff_set.
  destruct (JS.truthy v) eqn:E.
  - split; [intros _; apply lookup_insert_eq|].
    intros ->. discriminate.
  - apply truthy_false in E. subst v. split; [congruence|auto].
Qed.

Lemma add_if_set_no_empty key v (params : gmap string QueryValue) :
  (forall k, params !! k <> Some (QStr "")) ->
  forall k, add_if_set key v params !! k <> Some (QStr "").
Proof.
  intros Hp k. unfold add_if_set.
  destruct (JS.truthy v) eqn:E; [|apply Hp].
  destruct (decide (key = k)) as [->|Hne].
  - rewrite lookup_insert_eq. intros [= ->]. discriminate.
  - rewrite lookup_insert_ne by exact Hne. apply Hp.
Qed.

(** C6: whatever page was current, the change handler of the search
    box, of the category, sort field and sort order selects and of
    either price bound leaves [currentPage] at 1. *)
Theorem filter_change_resets_page (i : FilterInput) (value : string)
    (env : Env) (w : World State) :
  fst (run (onChange i value) env w) = Normal tt /\
  currentPage (st (snd (run (onChange i value) env w))) = 1.
Proof.
  destruct i; split; reflexivity.
Qed.

(** C7: once loading is over, the pagination block is rendered exactly
    when [lastPage > 1]; in it, Previous is disabled exactly when
    [currentPage = 1] and Next exactly when [currentPage = lastPage]. *)
Theorem pagination_controls (s : State) :
  loading s = false ->
  (is_Some (shown_pagination (render toFixed s)) <-> 1 < lastPage s) /\
  (forall p, shown_pagination (render toFixed s) = Some p ->
     (previous_disabled p = true <-> currentPage s = 1) /\
     (next_disabled p = true <-> currentPage s = lastPage s)).
Proof.
  intros Hl. unfold shown_pagination, render. simpl. rewrite Hl.
  unfold JS.and_then.
  destruct (1 <? lastPage s) eqn:E.
  - apply Z.ltb_lt in E. split.
    + split; [intros _; exact E | intros _; eexists; reflexivity].
    + intros p [= <-]. simpl. split; apply Z.eqb_eq.
  - apply Z.ltb_ge in E. split.
    + split; [intros [p Hp]; discriminate | lia].
    + intros p Hp. discriminate.
Qed.

Lemma build_params_lookup (c : State) :
  let params := build_params c in
  params !! "page" = Some (QNum (currentPage c)) /\
  params !! "per_page" = Some (QNum 12) /\
  sent_iff_set params "search" (search c) /\
  sent_iff_set params "category" (category_filter c) /\
  sent_iff_set params "sort_by" (sortBy c) /\
  sent_iff_set params "sort_order" (sortOrder c) /\
  sent_iff_set params "min_price" (minPrice c) /\
  sent_iff_set params "max_price" (maxPrice c).
Proof.
  unfold build_params. cbv zeta.
  assert (Hs : forall key v k (m : gmap string QueryValue) value,
             k <> key -> sent_iff_set m k value ->
             sent_iff_set (add_if_set key v m) k value).
  { intros key v k m value Hne [H1 H2].
    split; intros H; rewrite add_if_set_other by exact Hne; auto. }
  repeat split;
    repeat first
      [ rewrite add_if_set_other by discriminate
      | apply Hs; [discriminate|] ];
    try (apply add_if_set_same;
         repeat rewrite add_if_set_other by discriminate;
         repeat rewrite lookup_insert_ne by discriminate;
         apply lookup_empty).
  - rewrite lookup_insert_ne by discriminate. apply lookup_insert_eq.
  - apply lookup_insert_eq.
Qed.

Lemma build_params_no_empty (c : State) (k : string) :
  build_params c !! k <> Some (QStr "").
Proof.
  revert k. unfold build_params. cbv zeta.
  repeat apply add_if_set_no_empty.
  intros k.
  destruct (decide ("per_page" = k)) as [<-|H1].
  { rewrite lookup_insert_eq. discriminate. }
  rewrite lookup_insert_ne by exact H1.
  destruct (decide ("page" = k)) as [<-|H2].
  { rewrite lookup_insert_eq. discriminate. }
  rewrite lookup_insert_ne by exact H2.
  rewrite lookup_empty. discriminate.
Qed.

(** C8: whatever the filter, sort and page values captured by the
    render, [fetchProducts] issues exactly one request, a GET of the
    products endpoint, whose parameters carry [page] (the current
    page) and [per_page = 12]; each of [search], [category],
    [sort_by], [sort_order], [min_price], [max_price] is present with
    the current value exactly when that value is not empty, and no
    parameter is sent as the empty string. *)
Theorem products_request_params (c : State) (env : Env) (w : World State) :
  let r := products_request c in
  requests (trace (snd (run (fetchProducts c) env w)))
  = (requests (trace w) ++ [r])%list /\
  method r = GET /\
  params r !! "page" = Some (QNum (currentPage c)) /\
  params r !! "per_page" = Some (QNum 12) /\
  sent_iff_set (params r) "search" (search c) /\
  sent_iff_set (params r) "category" (category_filter c) /\
  sent_iff_set (params r) "sort_by" (sortBy c) /\
  sent_iff_set (params r) "sort_order" (sortOrder c) /\
  sent_iff_set (params r) "min_price" (minPrice c) /\
  sent_iff_set (params r) "max_price" (maxPrice c) /\
  (forall k, params r !! k <> Some (QStr "")).
Proof.
  cbv zeta. split; [|split; [reflexivity|]].
  - unfold run, fetchProducts, bind, finally, try_catch, await_request,
      set, emit. simpl.
    destruct (network env (products_request c)); simpl;
      unfold requests; rewrite ?omap_app; simpl;
      rewrite ?app_nil_r; reflexivity.
  - pose proof (build_params_lookup c) as H. cbv zeta in H.
    simpl.
    destruct H as (Hpage & Hper & Hs & Hc & Hsb & Hso & Hmin & Hmax).
    repeat (split; [assumption|]).
    apply build_params_no_empty.
Qed.

(** C9: when the products request is rejected, [fetchProducts] ends
    with the error "Failed to fetch products", which the page renders,
    with [loading] false, and with the products, current page, last
    page and total it started from. *)
Theorem failed_fetch_keeps_listing (c : State) (env : Env)
    (w : World State) (err : AxiosError) :
  network env (products_request c) = Rejected err ->
  let w' := snd (run (fetchProducts c) env w) in
  fst (run (fetchProducts c) env w) = Normal tt /\
  error (st w') = "Failed to fetch products" /\
  error_message (render toFixed (st w')) = Some "Failed to fetch products" /\
  loading (st w') = false /\
  products (st w') = products (st w) /\
  currentPage (st w') = currentPage (st w) /\
  lastPage (st w') = lastPage (st w) /\
  total_count (st w') = total_count (st w).
Proof.
  intros Hrej. cbv zeta.
  unfold run, fetchProducts, bind, finally, try_catch, await_request,
    set, emit. simpl. rewrite Hrej. simpl.
  repeat split; reflexivity.
Qed.

End DashboardProperties.

Lemma pagination_controls_witness :
  Dashboard.loading Examples.browsing = false /\
  is_Some (Dashboard.shown_pagination
             (Dashboard.render Examples.toFixed Examples.browsing)) /\
  (forall p,
     Dashboard.shown_pagination
       (Dashboard.render Examples.toFixed Examples.browsing) = Some p ->
     Dashboard.previous_disabled p <> true /\
     Dashboard.next_disabled p <> true).
Proof.
  destruct (pagination_controls Examples.toFixed Examples.browsing eq_refl)
    as [Hshown Hbuttons].
  split; [reflexivity|]. split.
  - apply Hshown. reflexivity.
  - intros p Hp. destruct (Hbuttons p Hp) as [Hprev Hnext]. split.
    + intros H. apply Hprev in H. discriminate H.
    + intros H. apply Hnext in H. discriminate H.
Defined.

Lemma failed_fetch_keeps_listing_witness :
  let w := {| st := Examples.browsing; trace := [] |} in
  let w' := snd (run (Dashboard.fetchProducts Examples.browsing)
                     Examples.backend_down w) in
  network Examples.backend_down (Dashboard.products_request Examples.browsing)
  = Rejected {| response := None |} /\
  Dashboard.error (st w') = "Failed to fetch products" /\
  Dashboard.loading (st w') = false /\
  Dashboard.currentPage (st w') = 3 /\
  Dashboard.lastPage (st w') = 5.
Proof.
  cbv zeta.
  destruct (failed_fetch_keeps_listing Examples.toFixed Examples.browsing
              Examples.backend_down
              {| st := Examples.browsing; trace := [] |}
              {| response := None |} eq_refl)
    as (_ & Herr & _ & Hload & _ & Hcur & Hlast & _).
  split; [reflexivity|].
  split; [exact Herr|]. split; [exact Hload|].
  split; [exact Hcur | exact Hlast].
Defined.


(* ================================================================== *)
(** ** Properties of the product detail page *)
(* ================================================================== *)

Section ProductDetailProperties.
Import ProductDetail.
Context {Num : Type}
        (toString : Num -> string)
        (toFixed : nat -> Num -> string)
        (toLocaleDateString : string -> string)
        (VITE_API_BASE_URL : option string).

Abbreviation State := (@State Num).
Abbreviation Env := (Env (@ProductBody Num)).
Abbreviation render := (render toFixed toLocaleDateString VITE_API_BASE_URL).
Abbreviation fetchProduct := (fetchProduct toString).
Abbreviation handleUpdate := (handleUpdate toString).

Lemma or_str_truthy (a d : string) :
  JS.truthy d = true -> JS.truthy (JS.or_str a d) = true.
Proof.
  intros Hd. unfold JS.or_str. destruct (JS.truthy a) eqn:E; assumption.
Qed.

Lemma or_else_truthy (a : option string) (d : string) :
  JS.truthy d = true -> JS.truthy (JS.or_else a d) = true.
Proof.
  intros Hd. destruct a as [s|]; simpl; [apply or_str_truthy|]; assumption.
Qed.

Lemma or_else_when_truthy (a : option string) (d : string) :
  JS.or_else a d = default d (JS.when_truthy a).
Proof.
  destruct a as [s|]; simpl; [|reflexivity].
  unfold JS.or_str. destruct (JS.truthy s); reflexivity.
Qed.

(** [fetchProduct] catches what it throws. *)
Lemma fetchProduct_returns (id : string) (env : Env) (w : World State) :
  fst (run (fetchProduct id) env w) = Normal tt.
Proof.
  unfold run, ProductDetail.fetchProduct, bind, finally, try_catch,
    await_request, set, emit. simpl.
  destruct (network env (get_request id)); reflexivity.
Qed.

Lemma fetchProduct_requests (id : string) (env : Env) (w : World State) :
  requests (trace (snd (run (fetchProduct id) env w)))
  = (requests (trace w) ++ [get_request id])%list.
Proof.
  unfold run, ProductDetail.fetchProduct, bind, finally, try_catch,
    await_request, set, emit. simpl.
  destruct (network env (get_request id)); simpl;
    unfold requests; rewrite ?omap_app; simpl;
    rewrite ?app_nil_r; reflexivity.
Qed.

(** The re-fetch leaves the edit flag and the chosen file alone. *)
Lemma fetchProduct_keeps_edit_cells (id : string) (env : Env)
    (w : World State) :
  let s' := st (snd (run (fetchProduct id) env w)) in
  isEditing s' = isEditing (st w) /\
  imageFile s' = imageFile (st w) /\
  imagePreview s' = imagePreview (st w).
Proof.
  cbv zeta.
  unfold run, ProductDetail.fetchProduct, bind, finally, try_catch,
    await_request, set, emit. simpl.
  destruct (network env (get_request id)); simpl; auto.
Qed.

(** C3: the request [handleDelete] can issue is a DELETE of
    /products/{id}.  Declining the prompt issues no request and leaves
    the state as it was; confirming issues that one DELETE request and
    then, when it succeeds, navigates to /dashboard and, when it fails,
    sets the error "Failed to delete product", which the detail view
    shows, without navigating. *)
Theorem delete_confirmation_gate (id : string) (env : Env)
    (w : World State) :
  let request :=
    {| method := DELETE; url := "/products/" +:+ id; params := ∅;
       form := []; headers := [] |} in
  delete_request id = request /\
  (confirm env delete_prompt = false ->
   run (handleDelete id) env w
   = (Normal tt,
      {| st := st w;
         trace := trace w ++ [EConfirm delete_prompt] |}) /\
   requests (trace (snd (run (handleDelete id) env w)))
   = requests (trace w)) /\
  (confirm env delete_prompt = true ->
   forall b, network env request = Fulfilled b ->
   run (handleDelete id) env w
   = (Normal tt,
      {| st := st w;
         trace := trace w ++ [EConfirm delete_prompt;
                              ERequest request;
                              ENavigate "/dashboard" false] |}) /\
   requests (trace (snd (run (handleDelete id) env w)))
   = (requests (trace w) ++ [request])%list) /\
  (confirm env delete_prompt = true ->
   forall err, network env request = Rejected err ->
   run (handleDelete id) env w
   = (Normal tt,
      {| st := setError "Failed to delete product" (st w);
         trace := trace w ++ [EConfirm delete_prompt;
                              ERequest request;
                              EConsoleError] |}) /\
   requests (trace (snd (run (handleDelete id) env w)))
   = (requests (trace w) ++ [request])%list /\
   (loading (st w) = false -> product (st w) <> None ->
    shown_error (render (setError "Failed to delete product" (st w)))
    = Some "Failed to delete product")).
Proof.
  cbv zeta.
  change {| method := DELETE; url := "/products/" +:+ id; params := ∅;
            form := []; headers := [] |} with (delete_request id).
  split; [reflexivity|].
  unfold run, handleDelete, bind, window_confirm, try_catch, await_request,
    set, emit, ret. cbn [st trace negb].
  split; [|split].
  - intros ->. cbn. split; [reflexivity|].
    unfold requests. rewrite omap_app. cbn. apply app_nil_r.
  - intros -> b Hnet. cbn. rewrite Hnet. cbn.
    rewrite <- !app_assoc. split; [reflexivity|].
    unfold requests. rewrite omap_app. reflexivity.
  - intros -> err Hnet. cbn. rewrite Hnet. cbn. split; [|split].
    + rewrite <- !app_assoc. reflexivity.
    + rewrite <- !app_assoc. unfold requests. rewrite omap_app.
      reflexivity.
    + intros Hl Hp. unfold ProductDetail.render. cbn. rewrite Hl.
      destruct (product (st w)); [reflexivity|congruence].
Qed.

(** C4: the submission is a POST to /products/{id}.  When it is
    fulfilled with a product, wrapped as [{ data: product }] or not,
    [handleUpdate] makes that product the current one, leaves edit mode
    and clears the chosen file and its preview, and from that state
    re-fetches: it issues a GET of /products/{id} and, when that is
    fulfilled, shows the fetched product with a draft rebuilt from it;
    when the GET is rejected the adopted product stays, under the error
    "Failed to fetch product".  The edit cells stay cleared either
    way. *)
Theorem update_success_adopts_and_refetches (id : string) (c : State)
    (env : Env) (w : World State) (body : ProductBody) (p : Product) :
  body = Wrapped p \/ body = Bare p ->
  network env (update_request id c) = Fulfilled body ->
  let adopted :=
    setImagePreview None
      (setImageFile None
         (setIsEditing false
            (setProduct (Some p) (setError "" (st w))))) in
  let w1 := {| st := adopted;
               trace := trace w ++ [ERequest (update_request id c)] |} in
  let w' := snd (run (handleUpdate id c) env w) in
  let refetch :=
    {| method := GET; url := "/products/" +:+ id; params := ∅;
       form := []; headers := [] |} in
  product adopted = Some p /\
  isEditing adopted = false /\
  imageFile adopted = None /\
  imagePreview adopted = None /\
  run (handleUpdate id c) env w = run (fetchProduct id) env w1 /\
  fst (run (handleUpdate id c) env w) = Normal tt /\
  requests (trace w')
  = (requests (trace w) ++ [update_request id c; get_request id])%list /\
  isEditing (st w') = false /\
  imageFile (st w') = None /\
  imagePreview (st w') = None /\
  method (update_request id c) = POST /\
  url (update_request id c) = "/products/" +:+ id /\
  get_request id = refetch /\
  (forall fresh, network env refetch = Fulfilled fresh ->
     st w'
     = setLoading false
         (setFormData (draft_of toString (unwrap fresh))
            (setProduct (Some (unwrap fresh))
               (setError "" (setLoading true adopted)))) /\
     product (st w') = Some (unwrap fresh) /\
     error (st w') = "" /\ loading (st w') = false /\
     trace w'
     = (trace w ++ [ERequest (update_request id c); ERequest refetch])%list) /\
  (forall err, network env refetch = Rejected err ->
     st w'
     = setLoading false
         (setError "Failed to fetch product"
            (setError "" (setLoading true adopted))) /\
     product (st w') = Some p /\
     error (st w') = "Failed to fetch product" /\
     loading (st w') = false /\
     trace w'
     = (trace w ++ [ERequest (update_request id c); ERequest refetch;
                    EConsoleError])%list).
Proof.
  intros Hbody Hnet. cbv zeta.
  change {| method := GET; url := "/products/" +:+ id; params := ∅;
            form := []; headers := [] |} with (get_request id).
  assert (Hp : unwrap body = p) by (destruct Hbody; subst; reflexivity).
  set (adopted := setImagePreview None
      (setImageFile None
         (setIsEditing false
            (setProduct (Some p) (setError "" (st w)))))).
  set (w1 := {| st := adopted;
                trace := trace w ++ [ERequest (update_request id c)] |}).
  assert (Hrun : run (handleUpdate id c) env w = run (fetchProduct id) env w1).
  { pose proof (fetchProduct_returns id env w1) as Hret.
    unfold run in *. unfold ProductDetail.handleUpdate.
    unfold try_catch, bind, set, await_request.
    cbn [st trace]. rewrite Hnet. cbn [st trace]. rewrite Hp.
    fold adopted. fold w1.
    destruct (ProductDetail.fetchProduct toString id env w1) as [[[]|e] w2];
      [reflexivity|discriminate]. }
  rewrite Hrun.
  pose proof (fetchProduct_keeps_edit_cells id env w1) as (He & Hf & Hv).
  assert (Hfetch :
    run (fetchProduct id) env w1
    = match network env (get_request id) with
      | Fulfilled response =>
          (Normal tt,
           {| st := setLoading false
                      (setFormData (draft_of toString (unwrap response))
                         (setProduct (Some (unwrap response))
                            (setError "" (setLoading true adopted))));
              trace := trace w1 ++ [ERequest (get_request id)] |})
      | Rejected _ =>
          (Normal tt,
           {| st := setLoading false
                      (setError "Failed to fetch product"
                         (setError "" (setLoading true adopted)));
              trace := trace w1 ++ [ERequest (get_request id);
                                   EConsoleError] |})
      end).
  { unfold run, ProductDetail.fetchProduct, bind, finally, try_catch,
      await_request, set, emit. cbn [st trace].
    destruct (network env (get_request id)); cbn [st trace].
    - reflexivity.
    - rewrite <- app_assoc. reflexivity. }
  split; [reflexivity|]. split; [reflexivity|]. split; [reflexivity|].
  split; [reflexivity|]. split; [reflexivity|].
  split; [apply fetchProduct_returns|].
  split.
  { rewrite fetchProduct_requests. subst w1. simpl.
    unfold requests. rewrite omap_app. simpl.
    rewrite <- app_assoc. reflexivity. }
  split; [rewrite He; reflexivity|].
  split; [rewrite Hf; reflexivity|].
  split; [rewrite Hv; reflexivity|].
  split; [reflexivity|]. split; [reflexivity|]. split; [reflexivity|].
  rewrite Hfetch. split.
  - intros fresh ->. cbn [snd st trace]. subst w1. cbn [trace].
    rewrite <- app_assoc. repeat split.
  - intros err ->. cbn [snd st trace]. subst w1. cbn [trace].
    rewrite <- app_assoc. repeat split.
Qed.

(** C5: when the update request is rejected, the error becomes the
    backend's message if it sent a non-empty one and "Failed to update
    product" otherwise, and the detail view shows it; the edit flag, the
    current product, the draft, and the chosen file and its preview are
    what they were, and nothing else is requested. *)
Theorem update_failure_keeps_draft (id : string) (c : State)
    (env : Env) (w : World State) (err : AxiosError) :
  network env (update_request id c) = Rejected err ->
  let w' := snd (run (handleUpdate id c) env w) in
  fst (run (handleUpdate id c) env w) = Normal tt /\
  (forall m, JS.when_truthy (backend_message err) = Some m ->
             error (st w') = m) /\
  (JS.when_truthy (backend_message err) = None ->
   error (st w') = "Failed to update product") /\
  (loading (st w) = false -> product (st w) <> None ->
   shown_error (render (st w')) = Some (error (st w'))) /\
  isEditing (st w') = isEditing (st w) /\
  product (st w') = product (st w) /\
  formData (st w') = formData (st w) /\
  imageFile (st w') = imageFile (st w) /\
  imagePreview (st w') = imagePreview (st w) /\
  trace w'
  = (trace w ++ [ERequest (update_request id c); EConsoleError])%list.
Proof.
  intros Hnet. cbv zeta.
  unfold run, ProductDetail.handleUpdate.
  unfold try_catch, bind, set, emit, await_request.
  cbn [st trace]. rewrite Hnet. cbn [st trace fst snd].
  repeat split.
  - intros m Hm. cbn. rewrite or_else_when_truthy, Hm. reflexivity.
  - intros Hm. cbn. rewrite or_else_when_truthy, Hm. reflexivity.
  - intros Hl Hp. unfold ProductDetail.render. cbn. rewrite Hl.
    destruct (product (st w)); [|congruence]. cbn.
    rewrite or_else_truthy by reflexivity. reflexivity.
  - rewrite <- app_assoc. reflexivity.
Qed.

(** C10: in edit mode with no replacement file chosen (and so no
    preview of one), the form renders an image preview exactly when the
    product's stored path [image] is a non-empty string; a product that
    only has the absolute [image_url] gets no preview, although the view
    mode shows that URL. *)
Theorem edit_preview_needs_stored_path (s : State) (p : Product) :
  loading s = false -> product s = Some p -> isEditing s = true ->
  imageFile s = None -> imagePreview s = None ->
  (is_Some (shown_preview (render s))
   <-> exists path, image p = Some path /\ path <> "") /\
  (forall u, JS.when_truthy (image_url p) = Some u ->
             JS.when_truthy (image p) = None ->
     shown_preview (render s) = None /\
     shown_image (render (setIsEditing false s)) = Some u).
Proof.
  intros Hl Hp He _ Hv.
  unfold shown_preview, shown_image, ProductDetail.render. simpl.
  rewrite Hl, Hp, He. simpl. rewrite Hv. simpl.
  unfold JS.and_then, JS.truthy_opt, JS.when_truthy.
  split.
  - destruct (image p) as [path|].
    + destruct (JS.truthy path) eqn:E.
      * split; [|intros _; eexists; reflexivity].
        intros _. exists path. split; [reflexivity|].
        intros ->. discriminate.
      * split; [intros [x Hx]; discriminate|].
        intros (path' & [= <-] & Hne).
        unfold JS.truthy in E. apply negb_false_iff, String.eqb_eq in E.
        contradiction.
    + split; [intros [x Hx]; discriminate|].
      intros (path' & Hx & _). discriminate.
  - intros u Hu Hi. unfold getImageUrl, JS.when_truthy.
    rewrite Hu.
    destruct (image p) as [path|]; [|split; reflexivity].
    destruct (JS.truthy path); [discriminate|split; reflexivity].
Qed.

End ProductDetailProperties.

Lemma delete_confirmation_gate_witness :
  let w := {| st := Examples.viewing Examples.lamp; trace := [] |} in
  let request :=
    {| method := DELETE; url := "/products/7"; params := ∅;
       form := []; headers := [] |} in
  run (ProductDetail.handleDelete "7") Examples.declining w
  = (Normal tt,
     {| st := Examples.viewing Examples.lamp;
        trace := [EConfirm ProductDetail.delete_prompt] |})
  /\ run (ProductDetail.handleDelete "7")
         (Examples.accepting Examples.lamp) w
     = (Normal tt,
        {| st := Examples.viewing Examples.lamp;
           trace := [EConfirm ProductDetail.delete_prompt;
                     ERequest request;
                     ENavigate "/dashboard" false] |})
  /\ requests (trace (snd (run (ProductDetail.handleDelete "7")
                               Examples.rejecting w))) = [request]
  /\ ProductDetail.shown_error
       (ProductDetail.render Examples.toFixed Examples.toLocaleDateString None
          (st (snd (run (ProductDetail.handleDelete "7")
                        Examples.rejecting w))))
     = Some "Failed to delete product".
Proof.
  cbv zeta.
  pose (w := {| st := Examples.viewing Examples.lamp;
                trace := @nil Effect |}).
  split; [|split; [|split]].
  - exact (proj1 (proj1 (proj2 (delete_confirmation_gate
                    Examples.toFixed Examples.toLocaleDateString None
                    "7" Examples.declining w)) eq_refl)).
  - exact (proj1 (proj1 (proj2 (proj2 (delete_confirmation_gate
                    Examples.toFixed Examples.toLocaleDateString None
                    "7" (Examples.accepting Examples.lamp) w)))
             eq_refl (ProductDetail.Wrapped Examples.lamp) eq_refl)).
  - exact (proj1 (proj2 (proj2 (proj2 (proj2 (delete_confirmation_gate
                    Examples.toFixed Examples.toLocaleDateString None
                    "7" Examples.rejecting w)))
             eq_refl Examples.validation_error eq_refl))).
  - destruct (proj2 (proj2 (proj2 (delete_confirmation_gate
                    Examples.toFixed Examples.toLocaleDateString None
                    "7" Examples.rejecting w)))
                eq_refl Examples.validation_error eq_refl)
      as (Hrun & _ & Hshown).
    fold w. rewrite Hrun. apply Hshown; [reflexivity|discriminate].
Defined.

Lemma update_success_adopts_and_refetches_witness :
  let c := Examples.editing Examples.lamp in
  let refetch :=
    {| method := GET; url := "/products/7"; params := ∅;
       form := []; headers := [] |} in
  let w' := snd (run (ProductDetail.handleUpdate Examples.toString "7" c)
                     (Examples.accepting Examples.poster)
                     {| st := c; trace := [] |}) in
  let kept := snd (run (ProductDetail.handleUpdate Examples.toString "7" c)
                       (Examples.saving_only Examples.poster)
                       {| st := c; trace := [] |}) in
  requests (trace w') = [ProductDetail.update_request "7" c; refetch]
  /\ ProductDetail.isEditing (st w') = false
  /\ ProductDetail.imageFile (st w') = None
  /\ ProductDetail.imagePreview (st w') = None
  /\ ProductDetail.product (st w') = Some Examples.poster
  /\ ProductDetail.product (st kept) = Some Examples.poster
  /\ ProductDetail.error (st kept) = "Failed to fetch product".
Proof.
  cbv zeta.
  destruct (update_success_adopts_and_refetches Examples.toString
              "7" (Examples.editing Examples.lamp)
              (Examples.accepting Examples.poster)
              {| st := Examples.editing Examples.lamp; trace := [] |}
              (ProductDetail.Wrapped Examples.poster) Examples.poster
              (or_introl eq_refl) eq_refl)
    as (_ & _ & _ & _ & _ & _ & Hreq & Hed & Hfile & Hprev & _ & _ & _
        & Hok & _).
  destruct (Hok (ProductDetail.Wrapped Examples.poster) eq_refl)
    as (_ & Hprod & _).
  destruct (update_success_adopts_and_refetches Examples.toString
              "7" (Examples.editing Examples.lamp)
              (Examples.saving_only Examples.poster)
              {| st := Examples.editing Examples.lamp; trace := [] |}
              (ProductDetail.Bare Examples.poster) Examples.poster
              (or_intror eq_refl) eq_refl)
    as (_ & _ & _ & _ & _ & _ & _ & _ & _ & _ & _ & _ & _ & _ & Hko).
  destruct (Hko Examples.validation_error eq_refl)
    as (_ & Hkept & Herr & _).
  split; [exact Hreq|]. split; [exact Hed|].
  split; [exact Hfile|]. split; [exact Hprev|].
  split; [exact Hprod|]. split; [exact Hkept | exact Herr].
Defined.

Lemma update_failure_keeps_draft_witness :
  let c := Examples.editing Examples.lamp in
  let w' := snd (run (ProductDetail.handleUpdate Examples.toString "7" c)
                     Examples.rejecting {| st := c; trace := [] |}) in
  ProductDetail.error (st w') = "The name field is required."
  /\ ProductDetail.isEditing (st w') = true
  /\ ProductDetail.product (st w') = Some Examples.lamp
  /\ ProductDetail.formData (st w') = ProductDetail.formData c.
Proof.
  cbv zeta.
  destruct (update_failure_keeps_draft Examples.toString
              Examples.toFixed Examples.toLocaleDateString None
              "7" (Examples.editing Examples.lamp) Examples.rejecting
              {| st := Examples.editing Examples.lamp; trace := [] |}
              Examples.validation_error eq_refl)
    as (_ & Hmsg & _ & _ & Hed & Hprod & Hform & _).
  split; [exact (Hmsg "The name field is required." eq_refl)|].
  split; [exact Hed|]. split; [exact Hprod | exact Hform].
Defined.

Lemma edit_preview_needs_stored_path_witness :
  ProductDetail.shown_preview
    (ProductDetail.render Examples.toFixed Examples.toLocaleDateString None
       (Examples.editing Examples.poster)) = None
  /\ ProductDetail.shown_image
       (ProductDetail.render Examples.toFixed Examples.toLocaleDateString None
          (ProductDetail.setIsEditing false
             (Examples.editing Examples.poster)))
     = Some "https://x/y.png"
  /\ is_Some (ProductDetail.shown_preview
       (ProductDetail.render Examples.toFixed Examples.toLocaleDateString None
          (Examples.editing Examples.lamp))).
Proof.
  destruct (edit_preview_needs_stored_path
              Examples.toFixed Examples.toLocaleDateString None
              (Examples.editing Examples.poster) Examples.poster
              eq_refl eq_refl eq_refl eq_refl eq_refl) as [_ Hurl].
  destruct (Hurl "https://x/y.png" eq_refl eq_refl) as [Hnone Hview].
  destruct (edit_preview_needs_stored_path
              Examples.toFixed Examples.toLocaleDateString None
              (Examples.editing Examples.lamp) Examples.lamp
              eq_refl eq_refl eq_refl eq_refl eq_refl) as [Hiff _].
  split; [exact Hnone|]. split; [exact Hview|].
  apply Hiff. exists "abc.png". split; [reflexivity|discriminate].
Defined.

(* ================================================================== *)
(** ** The image URL of the detail view *)
(* ================================================================== *)

Section ImageUrlProperties.
Import ProductDetail.
Context {Num : Type}.

Abbreviation Product := (@Product Num).

Lemma length_append (a b : string) :
  String.length (a +:+ b) = (String.length a + String.length b)%nat.
Proof.
  induction a as [|ch a IH]; simpl; [reflexivity|]. rewrite IH. reflexivity.
Qed.

Lemma substring_nothing (n : nat) (s : string) : String.substring n 0 s = "".
Proof.
  revert s. induction n as [|n IH]; intros [|ch s]; simpl; auto.
Qed.

Lemma substring_prefix (a b : string) :
  String.substring 0 (String.length a) (a +:+ b) = a.
Proof.
  induction a as [|ch a IH]; simpl.
  - apply substring_nothing.
  - rewrite IH. reflexivity.
Qed.

Lemma substring_skip (a b : string) (m : nat) :
  String.substring (String.length a) m (a +:+ b) = String.substring 0 m b.
Proof.
  induction a as [|ch a IH]; simpl; [reflexivity|exact IH].
Qed.

Lemma append_empty_r (a : string) : a +:+ "" = a.
Proof.
  induction a as [|ch a IH]; [reflexivity|].
  change (String ch (a +:+ "") = String ch a). rewrite IH. reflexivity.
Qed.

Lemma strip_trailing_api_suffix (b : string) :
  strip_trailing_api (b +:+ "/api") = b.
Proof.
  unfold strip_trailing_api, JS.endsWith.
  rewrite length_append. cbn [String.length].
  replace (String.length b + 4 - 4)%nat with (String.length b) by lia.
  rewrite substring_skip. cbn [String.substring String.eqb Ascii.eqb
                                 Bool.eqb andb].
  replace (4 <=? String.length b + 4)%nat with true
    by (symmetry; apply Nat.leb_le; lia).
  cbn [andb]. apply substring_prefix.
Qed.

Lemma replace_api_suffix (b : string) :
  String.index 0 "/api" (b +:+ "/api") = Some (String.length b) ->
  JS.replace "/api" "" (b +:+ "/api") = b.
Proof.
  intros Hidx. unfold JS.replace. rewrite Hidx.
  rewrite substring_prefix, length_append. cbn [String.length].
  replace (String.length b + 4 - (String.length b + 4))%nat with 0%nat by lia.
  rewrite substring_nothing. cbn [String.append].
  apply append_empty_r.
Qed.

Lemma or_else_some (s d : string) : s <> "" -> JS.or_else (Some s) d = s.
Proof.
  intros Hs. simpl. unfold JS.or_str, JS.truthy.
  destruct (String.eqb_spec s ""); [contradiction|reflexivity].
Qed.

(** The absolute URL wins whenever it is a non-empty string, and the
    placeholder is used when there is neither URL nor stored path: on
    these two branches the code and the specification's wording agree
    for every configuration. *)
Lemma getImageUrl_prefers_image_url (env : option string) (p : Product)
    (u : string) :
  JS.when_truthy (image_url p) = Some u ->
  getImageUrl env (image_url p) (image p) = u /\
  specified_image_url env p = u.
Proof.
  intros Hu. unfold getImageUrl, specified_image_url. rewrite Hu. auto.
Qed.

Lemma getImageUrl_placeholder (env : option string) (p : Product) :
  JS.when_truthy (image_url p) = None ->
  JS.when_truthy (image p) = None ->
  getImageUrl env (image_url p) (image p)
  = "https://via.placeholder.com/600x400?text=No+Image" /\
  specified_image_url env p
  = "https://via.placeholder.com/600x400?text=No+Image".
Proof.
  intros Hu Hi. unfold getImageUrl, specified_image_url.
  rewrite Hu, Hi. auto.
Qed.

(** With the variable unset, the stored path is resolved against
    [http://localhost:8000]. *)
Lemma getImageUrl_default_base (p : Product) (path : string) :
  JS.when_truthy (image_url p) = None ->
  JS.when_truthy (image p) = Some path ->
  getImageUrl None (image_url p) (image p)
  = "http://localhost:8000/storage/" +:+ path /\
  specified_image_url None p = "http://localhost:8000/storage/" +:+ path.
Proof.
  intros Hu Hi. unfold getImageUrl, specified_image_url.
  rewrite Hu, Hi. split; reflexivity.
Qed.

(** When the configured base URL is [b/api] and [/api] occurs nowhere
    before that suffix, the stored path is resolved against [b], as the
    specification words it. *)
Lemma getImageUrl_suffix_only (b : string) (p : Product) (path : string) :
  b <> "" ->
  String.index 0 "/api" (b +:+ "/api") = Some (String.length b) ->
  JS.when_truthy (image_url p) = None ->
  JS.when_truthy (image p) = Some path ->
  getImageUrl (Some (b +:+ "/api")) (image_url p) (image p)
  = b +:+ "/storage/" +:+ path /\
  specified_image_url (Some (b +:+ "/api")) p = b +:+ "/storage/" +:+ path.
Proof.
  intros Hb Hidx Hu Hi. unfold getImageUrl, specified_image_url.
  rewrite Hu, Hi. cbn [fmap option_fmap option_map].
  rewrite (replace_api_suffix b Hidx).
  rewrite (or_else_some b _ Hb).
  split; [reflexivity|].
  unfold configuredApiBaseUrl.
  rewrite or_else_some.
  - rewrite strip_trailing_api_suffix. reflexivity.
  - destruct b; [contradiction|discriminate].
Qed.

End ImageUrlProperties.

(** The development default, [http://localhost:8000/api], is such a
    base URL. *)
Example getImageUrl_localhost :
  ProductDetail.getImageUrl (Some "http://localhost:8000/api")
    (ProductDetail.image_url Examples.lamp) (ProductDetail.image Examples.lamp)
  = "http://localhost:8000/storage/abc.png" /\
  ProductDetail.specified_image_url (Some "http://localhost:8000/api")
    Examples.lamp
  = "http://localhost:8000/storage/abc.png".
Proof.
  apply (getImageUrl_suffix_only "http://localhost:8000" Examples.lamp
           "abc.png"); [discriminate | reflexivity | reflexivity | reflexivity].
Qed.

(** A relative base URL [/api] leaves nothing after the replacement,
    and the empty result falls back to the development host. *)
Example getImageUrl_relative_base :
  ProductDetail.getImageUrl (Some "/api")
    (ProductDetail.image_url Examples.lamp) (ProductDetail.image Examples.lamp)
  = "http://localhost:8000/storage/abc.png" /\
  ProductDetail.specified_image_url (Some "/api") Examples.lamp
  = "/storage/abc.png".
Proof. split; reflexivity. Qed.

(** C2: the detail view does not always resolve a stored path against
    the API base URL with its trailing [/api] stripped.  With the base
    URL [http://api.example.com/api] and a product whose only image is
    the stored path [abc.png], [getImageUrl] removes the first [/api] of
    the URL, the one that starts the host name, and the view shows
    [http:/.example.com/api/storage/abc.png], where the rule as
    specified gives [http://api.example.com/storage/abc.png]. *)
Theorem getImageUrl_removes_first_api :
  let env := Some "http://api.example.com/api" in
  let shown :=
    ProductDetail.getImageUrl env (ProductDetail.image_url Examples.lamp)
                              (ProductDetail.image Examples.lamp) in
  shown = "http:/.example.com/api/storage/abc.png" /\
  ProductDetail.shown_image
    (ProductDetail.render Examples.toFixed Examples.toLocaleDateString env
       (Examples.viewing Examples.lamp)) = Some shown /\
  ProductDetail.specified_image_url env Examples.lamp
  = "http://api.example.com/storage/abc.png" /\
  shown <> ProductDetail.specified_image_url env Examples.lamp.
Proof.
  cbv zeta. repeat split; try reflexivity.
  vm_compute. discriminate.
Qed.

(* ================================================================== *)
(** ** Further behaviour of the dashboard *)
(* ================================================================== *)

Section DashboardBehaviour.
Import Dashboard.
Context {Num : Type} (toFixed : nat -> Num -> string).

Abbreviation State := (@State Num).
Abbreviation Env := (Env (@ProductsResponse Num)).

Lemma add_if_set_lookup_some key v k x (params : gmap string QueryValue) :
  add_if_set key v params !! k = Some x ->
  k = key \/ params !! k = Some x.
Proof.
  unfold add_if_set. destruct (JS.truthy v); [|auto].
  destruct (decide (key = k)) as [->|Hne]; [auto|].
  rewrite lookup_insert_ne by exact Hne. auto.
Qed.

Lemma deps_cells (s1 s2 : State) :
  deps s1 = deps s2 ->
  search s1 = search s2 /\ category_filter s1 = category_filter s2 /\
  sortBy s1 = sortBy s2 /\ sortOrder s1 = sortOrder s2 /\
  minPrice s1 = minPrice s2 /\ maxPrice s1 = maxPrice s2 /\
  currentPage s1 = currentPage s2.
Proof.
  unfold deps. intros [= -> -> -> -> -> -> ->]. repeat split.
Qed.

(** What [fetchProducts] leaves behind, by the backend's reply. *)
Lemma fetchProducts_run (c : State) (env : Env) (w : World State) :
  run (fetchProducts c) env w
  = match network env (products_request c) with
    | Fulfilled response =>
        (Normal tt,
         {| st := setLoading false
                    (setTotal (total response)
                       (setLastPage (last_page response)
                          (setCurrentPage (current_page response)
                             (setProducts (data response)
                                (setError "" (setLoading true (st w)))))));
            trace := trace w ++ [ERequest (products_request c)] |})
    | Rejected _ =>
        (Normal tt,
         {| st := setLoading false
                    (setError "Failed to fetch products"
                       (setError "" (setLoading true (st w))));
            trace := trace w ++ [ERequest (products_request c);
                                 EConsoleError] |})
    end.
Proof.
  unfold run, fetchProducts, bind, finally, try_catch, await_request,
    set, emit. cbn [st trace].
  destruct (network env (products_request c)); cbn [st trace].
  - reflexivity.
  - rewrite <- app_assoc. reflexivity.
Qed.

(** Clear Filters, from any state, leaves the dependency cells at their
    defaults with page 1, so that the next request carries exactly
    [page = 1], [per_page = 12], [sort_by = created_at] and
    [sort_order = desc]; the listing cells and the banner are not
    touched and nothing is requested by the handler itself. *)
Theorem clear_filters_request (env : Env) (w : World State) :
  let w' := snd (run clearFilters env w) in
  fst (run clearFilters env w) = Normal tt /\
  trace w' = trace w /\
  deps (st w') = ("", "", "created_at", "desc", "", "", 1) /\
  params (products_request (st w'))
  = <["sort_order" := QStr "desc"]>
      (<["sort_by" := QStr "created_at"]>
         (<["per_page" := QNum 12]> (<["page" := QNum 1]> ∅))) /\
  products (st w') = products (st w) /\
  lastPage (st w') = lastPage (st w) /\
  total_count (st w') = total_count (st w) /\
  loading (st w') = loading (st w) /\
  error (st w') = error (st w).
Proof.
  cbv zeta. repeat split; reflexivity.
Qed.

(** A fulfilled products request replaces the list, the current page,
    the last page and the total by the response's, removes a previous
    error banner and ends loading; the six filter cells keep their
    values. *)
Theorem fetch_success_adopts_page (c : State) (env : Env)
    (w : World State) (response : ProductsResponse) :
  network env (products_request c) = Fulfilled response ->
  let w' := snd (run (fetchProducts c) env w) in
  products (st w') = data response /\
  currentPage (st w') = current_page response /\
  lastPage (st w') = last_page response /\
  total_count (st w') = total response /\
  error_message (render toFixed (st w')) = None /\
  loading (st w') = false /\
  shown_grid (render toFixed (st w')) = map (renderCard toFixed) (data response) /\
  trace w' = (trace w ++ [ERequest (products_request c)])%list.
Proof.
  intros Hnet. cbv zeta. rewrite fetchProducts_run, Hnet.
  repeat split; reflexivity.
Qed.

(** Whatever the backend replies, [fetchProducts] completes without
    throwing, with [loading] false and the six filter cells as they
    were, having done nothing but its one request (and, when it failed,
    the console report): no navigation, no prompt, no logout. *)
Theorem fetch_always_settles (c : State) (env : Env) (w : World State) :
  let w' := snd (run (fetchProducts c) env w) in
  fst (run (fetchProducts c) env w) = Normal tt /\
  loading (st w') = false /\
  search (st w') = search (st w) /\
  category_filter (st w') = category_filter (st w) /\
  sortBy (st w') = sortBy (st w) /\
  sortOrder (st w') = sortOrder (st w) /\
  minPrice (st w') = minPrice (st w) /\
  maxPrice (st w') = maxPrice (st w) /\
  (trace w' = (trace w ++ [ERequest (products_request c)])%list \/
   trace w' = (trace w ++ [ERequest (products_request c);
                           EConsoleError])%list).
Proof.
  cbv zeta. rewrite fetchProducts_run.
  destruct (network env (products_request c));
    repeat split; try reflexivity; [left|right]; reflexivity.
Qed.

(** A products request never carries a parameter other than the eight
    the page knows. *)
Theorem products_request_keys (c : State) (k : string) (x : QueryValue) :
  params (products_request c) !! k = Some x -> In k param_names.
Proof.
  cbn [params products_request]. unfold build_params. cbv zeta.
  intros H.
  repeat (apply add_if_set_lookup_some in H;
          destruct H as [->|H]; [simpl; tauto|]).
  destruct (decide ("per_page" = k)) as [<-|H1]; [simpl; tauto|].
  rewrite lookup_insert_ne in H by exact H1.
  destruct (decide ("page" = k)) as [<-|H2]; [simpl; tauto|].
  rewrite lookup_insert_ne in H by exact H2.
  rewrite lookup_empty in H. discriminate.
Qed.

Lemma products_request_of_deps (s1 s2 : State) :
  deps s1 = deps s2 -> products_request s1 = products_request s2.
Proof.
  intros H. apply deps_cells in H.
  destruct H as (H1 & H2 & H3 & H4 & H5 & H6 & H7).
  unfold products_request, build_params.
  rewrite H1, H2, H3, H4, H5, H6, H7. reflexivity.
Qed.

Lemma sent_iff_set_same_value (m : gmap string QueryValue)
    (key v1 v2 : string) :
  sent_iff_set m key v1 -> sent_iff_set m key v2 -> v1 = v2.
Proof.
  intros [Ha1 Hb1] [Ha2 Hb2].
  destruct (decide (v1 = "")) as [E1|E1];
    destruct (decide (v2 = "")) as [E2|E2].
  - congruence.
  - rewrite (Hb1 E1) in Ha2. specialize (Ha2 E2). discriminate.
  - rewrite (Hb2 E2) in Ha1. specialize (Ha1 E1). discriminate.
  - specialize (Ha1 E1). specialize (Ha2 E2). congruence.
Qed.

(** The dependency array is exact: two states give the same products
    request if and only if they agree on the seven dependency cells.
    A render that changes none of them has nothing new to ask, and any
    change of one of them changes the request. *)
Theorem deps_determine_request (s1 s2 : State) :
  deps s1 = deps s2 <-> products_request s1 = products_request s2.
Proof.
  split; [apply products_request_of_deps|].
  intros Hreq.
  assert (Hp : build_params s1 = build_params s2)
    by exact (f_equal params Hreq).
  pose proof (build_params_lookup s1) as L1.
  pose proof (build_params_lookup s2) as L2.
  cbv zeta in L1, L2. rewrite Hp in L1.
  destruct L1 as (P1 & _ & A1 & B1 & C1 & D1 & E1 & F1).
  destruct L2 as (P2 & _ & A2 & B2 & C2 & D2 & E2 & F2).
  unfold deps.
  rewrite (sent_iff_set_same_value _ _ _ _ A1 A2).
  rewrite (sent_iff_set_same_value _ _ _ _ B1 B2).
  rewrite (sent_iff_set_same_value _ _ _ _ C1 C2).
  rewrite (sent_iff_set_same_value _ _ _ _ D1 D2).
  rewrite (sent_iff_set_same_value _ _ _ _ E1 E2).
  rewrite (sent_iff_set_same_value _ _ _ _ F1 F2).
  rewrite P1 in P2. injection P2 as ->. reflexivity.
Qed.

(** Once loading is over, "No products found" is on screen exactly when
    the list is empty, and the grid has one card per product. *)
Theorem no_products_message (s : State) :
  loading s = false ->
  (shown_no_products (render toFixed s) = true <-> products s = []) /\
  shown_grid (render toFixed s) = map (renderCard toFixed) (products s) /\
  List.length (shown_grid (render toFixed s)) = List.length (products s).
Proof.
  intros Hl. unfold shown_no_products, shown_grid, render.
  cbn [body]. rewrite Hl. cbn [negb andb].
  split; [|split; [reflexivity|apply length_map]].
  rewrite andb_true_r. rewrite Nat.eqb_eq.
  destruct (products s); simpl; split; congruence.
Qed.

(** While the current page lies between 1 and the last page, a
    Previous or Next button that is enabled leads to a page that is
    again between 1 and the last page, and the two buttons are never
    both disabled. *)
Theorem enabled_buttons_stay_in_range (s : State) (p : PaginationView) :
  1 <= currentPage s <= lastPage s ->
  shown_pagination (render toFixed s) = Some p ->
  (previous_disabled p = false -> 1 <= previous_target p <= lastPage s) /\
  (next_disabled p = false -> 1 <= next_target p <= lastPage s) /\
  (previous_disabled p = false \/ next_disabled p = false).
Proof.
  intros Hrange Hp. unfold shown_pagination, render in Hp. cbn [body] in Hp.
  destruct (loading s); [discriminate|].
  unfold JS.and_then in Hp.
  destruct (1 <? lastPage s) eqn:E; [|discriminate].
  apply Z.ltb_lt in E. injection Hp as <-.
  cbn [previous_disabled previous_target next_disabled next_target
       renderPagination].
  split; [|split].
  - intros H. apply Z.eqb_neq in H. lia.
  - intros H. apply Z.eqb_neq in H. lia.
  - destruct (Z.eqb_spec (currentPage s) 1) as [H1|H1]; [|left; reflexivity].
    right. apply Z.eqb_neq. lia.
Qed.

(** After the effect's fetch, the effect does not run again when the
    request was rejected (a failure is not retried), nor when the
    response's [current_page] is the page that was asked for. *)
Theorem effect_quiet_after_fetch (s : State) (env env' : Env)
    (w : World State) :
  deps (st w) = deps s ->
  (match network env (products_request s) with
   | Fulfilled response => current_page response = currentPage s
   | Rejected _ => True
   end) ->
  let w' := snd (run (fetchProducts s) env w) in
  run (useEffect (Some s) (st w')) env' w' = (Normal tt, w').
Proof.
  intros Hdeps Hpage. cbv zeta. rewrite fetchProducts_run.
  apply deps_cells in Hdeps.
  destruct Hdeps as (H1 & H2 & H3 & H4 & H5 & H6 & H7).
  unfold run, useEffect.
  destruct (network env (products_request s)) as [response|err];
    cbn [snd st].
  - rewrite bool_decide_eq_true_2; [reflexivity|].
    unfold deps. cbn. rewrite H1, H2, H3, H4, H5, H6, Hpage. reflexivity.
  - rewrite bool_decide_eq_true_2; [reflexivity|].
    unfold deps. cbn. rewrite H1, H2, H3, H4, H5, H6, H7. reflexivity.
Qed.

(** When the response's [current_page] is not the page that was asked
    for, adopting it changes a dependency: the effect runs once more and
    asks for the backend's page with the same filters. *)
Theorem effect_follows_backend_page (s : State) (env env' : Env)
    (w : World State) (response : ProductsResponse) :
  deps (st w) = deps s ->
  network env (products_request s) = Fulfilled response ->
  current_page response <> currentPage s ->
  let w' := snd (run (fetchProducts s) env w) in
  run (useEffect (Some s) (st w')) env' w'
  = run (fetchProducts (st w')) env' w' /\
  products_request (st w')
  = products_request (setCurrentPage (current_page response) s) /\
  params (products_request (st w')) !! "page"
  = Some (QNum (current_page response)).
Proof.
  intros Hdeps Hnet Hpage. cbv zeta. rewrite fetchProducts_run, Hnet.
  cbn [snd st].
  apply deps_cells in Hdeps.
  destruct Hdeps as (H1 & H2 & H3 & H4 & H5 & H6 & H7).
  match goal with
  | |- context [useEffect (Some s) ?x] => set (s' := x)
  end.
  assert (Hd : deps s' = deps (setCurrentPage (current_page response) s)).
  { unfold deps, s'. cbn. rewrite H1, H2, H3, H4, H5, H6. reflexivity. }
  split; [|split].
  - unfold run, useEffect.
    rewrite bool_decide_eq_false_2; [reflexivity|].
    intros Heq. apply deps_cells in Heq.
    destruct Heq as (_ & _ & _ & _ & _ & _ & Heq).
    apply Hpage. rewrite Heq. reflexivity.
  - apply products_request_of_deps. exact Hd.
  - rewrite (products_request_of_deps _ _ Hd).
    pose proof (build_params_lookup
                  (setCurrentPage (current_page response) s)) as Hl.
    cbv zeta in Hl. exact (proj1 Hl).
Qed.

End DashboardBehaviour.

Lemma fetch_success_adopts_page_witness :
  let w' := snd (run (Dashboard.fetchProducts Examples.filtered)
                     (Examples.serving Examples.page_two)
                     {| st := Examples.filtered; trace := [] |}) in
  Dashboard.products (st w') = [Examples.mug] /\
  Dashboard.total_count (st w') = 13 /\
  Dashboard.error_message (Dashboard.render Examples.toFixed (st w')) = None.
Proof.
  cbv zeta.
  destruct (fetch_success_adopts_page Examples.toFixed Examples.filtered
              (Examples.serving Examples.page_two)
              {| st := Examples.filtered; trace := [] |}
              Examples.page_two eq_refl)
    as (Hprod & _ & _ & Htot & Hban & _).
  split; [exact Hprod|]. split; [exact Htot | exact Hban].
Defined.

Lemma products_request_keys_witness :
  In "min_price" Dashboard.param_names.
Proof.
  apply (products_request_keys Examples.filtered "min_price" (QStr "5")).
  vm_compute. reflexivity.
Defined.

Lemma no_products_message_witness :
  Dashboard.shown_no_products
    (Dashboard.render Examples.toFixed Examples.browsing) = true /\
  Dashboard.shown_no_products
    (Dashboard.render Examples.toFixed Examples.filtered) <> true.
Proof.
  split.
  - apply (proj1 (no_products_message Examples.toFixed Examples.browsing
                    eq_refl)).
    reflexivity.
  - intros H.
    apply (proj1 (no_products_message Examples.toFixed Examples.filtered
                    eq_refl)) in H.
    discriminate H.
Defined.

Lemma enabled_buttons_stay_in_range_witness :
  1 <= Dashboard.previous_target
         (Dashboard.renderPagination Examples.browsing) <= 5 /\
  1 <= Dashboard.next_target
         (Dashboard.renderPagination Examples.browsing) <= 5.
Proof.
  assert (Hrange : 1 <= Dashboard.currentPage Examples.browsing
                   <= Dashboard.lastPage Examples.browsing)
    by (simpl; lia).
  destruct (enabled_buttons_stay_in_range Examples.toFixed Examples.browsing
              (Dashboard.renderPagination Examples.browsing)
              Hrange eq_refl) as (Hprev & Hnext & _).
  split; [exact (Hprev eq_refl) | exact (Hnext eq_refl)].
Defined.

Lemma effect_quiet_after_fetch_witness :
  let w := {| st := Examples.filtered; trace := [] |} in
  let failed := snd (run (Dashboard.fetchProducts Examples.filtered)
                         Examples.backend_down w) in
  let served := snd (run (Dashboard.fetchProducts Examples.filtered)
                         (Examples.serving Examples.page_two) w) in
  run (Dashboard.useEffect (Some Examples.filtered) (st failed))
      Examples.backend_down failed = (Normal tt, failed) /\
  run (Dashboard.useEffect (Some Examples.filtered) (st served))
      (Examples.serving Examples.page_two) served = (Normal tt, served).
Proof.
  cbv zeta. split.
  - exact (effect_quiet_after_fetch Examples.filtered
             Examples.backend_down Examples.backend_down
             {| st := Examples.filtered; trace := [] |} eq_refl I).
  - exact (effect_quiet_after_fetch Examples.filtered
             (Examples.serving Examples.page_two)
             (Examples.serving Examples.page_two)
             {| st := Examples.filtered; trace := [] |} eq_refl eq_refl).
Defined.

Lemma effect_follows_backend_page_witness :
  let w := {| st := Examples.browsing; trace := [] |} in
  let w' := snd (run (Dashboard.fetchProducts Examples.browsing)
                     (Examples.serving Examples.page_two) w) in
  params (Dashboard.products_request (st w')) !! "page" = Some (QNum 2).
Proof.
  cbv zeta.
  assert (Hne : Dashboard.current_page Examples.page_two
                <> Dashboard.currentPage Examples.browsing)
    by (simpl; lia).
  exact (proj2 (proj2
           (effect_follows_backend_page Examples.browsing
              (Examples.serving Examples.page_two)
              (Examples.serving Examples.page_two)
              {| st := Examples.browsing; trace := [] |}
              Examples.page_two eq_refl eq_refl Hne))).
Defined.

(* ================================================================== *)
(** ** Further behaviour of the product detail page *)
(* ================================================================== *)

Section ProductDetailBehaviour.
Import ProductDetail.
Context {Num : Type}
        (toString : Num -> string)
        (toFixed : nat -> Num -> string)
        (toLocaleDateString : string -> string)
        (VITE_API_BASE_URL : option string).

Abbreviation State := (@State Num).
Abbreviation Env := (Env (@ProductBody Num)).
Abbreviation render := (render toFixed toLocaleDateString VITE_API_BASE_URL).
Abbreviation fetchProduct := (fetchProduct toString).
Abbreviation handleUpdate := (handleUpdate toString).
Abbreviation draft_of := (draft_of toString).

Lemma or_str_empty (a : string) : JS.or_str a "" = a.
Proof.
  unfold JS.or_str, JS.truthy.
  destruct (String.eqb_spec a ""); simpl; congruence.
Qed.

Lemma truthy_nonempty (s : string) : JS.truthy s = true -> s <> "".
Proof. intros H ->. discriminate. Qed.

(** What [fetchProduct] leaves behind, by the backend's reply. *)
Lemma fetchProduct_run (id : string) (env : Env) (w : World State) :
  run (fetchProduct id) env w
  = match network env (get_request id) with
    | Fulfilled response =>
        (Normal tt,
         {| st := setLoading false
                    (setFormData (draft_of (unwrap response))
                       (setProduct (Some (unwrap response))
                          (setError "" (setLoading true (st w)))));
            trace := trace w ++ [ERequest (get_request id)] |})
    | Rejected _ =>
        (Normal tt,
         {| st := setLoading false
                    (setError "Failed to fetch product"
                       (setError "" (setLoading true (st w))));
            trace := trace w ++ [ERequest (get_request id);
                                 EConsoleError] |})
    end.
Proof.
  unfold run, ProductDetail.fetchProduct, bind, finally, try_catch,
    await_request, set, emit. cbn [st trace].
  destruct (network env (get_request id)); cbn [st trace].
  - reflexivity.
  - rewrite <- app_assoc. reflexivity.
Qed.

(** A fulfilled product request, wrapped or not, makes the product
    current and refills the draft from it: name, category and
    description as they are, price and rating as text and never empty;
    the error is cleared, loading ends, and the edit flag and the chosen
    file are left alone. *)
Theorem fetch_product_success (id : string) (env : Env) (w : World State)
    (body : ProductBody) :
  network env (get_request id) = Fulfilled body ->
  let p := unwrap body in
  let s' := st (snd (run (fetchProduct id) env w)) in
  product s' = Some p /\
  field_value (formData s') name_field = name p /\
  field_value (formData s') category_field = category p /\
  field_value (formData s') description_field = description p /\
  field_value (formData s') price_field <> "" /\
  field_value (formData s') rating_field <> "" /\
  error s' = "" /\ loading s' = false /\
  isEditing s' = isEditing (st w) /\
  imageFile s' = imageFile (st w) /\
  imagePreview s' = imagePreview (st w).
Proof.
  intros Hnet. cbv zeta. rewrite fetchProduct_run, Hnet.
  cbn [snd st]. cbn.
  rewrite !or_str_empty.
  repeat split; try reflexivity.
  - apply truthy_nonempty. unfold number_field.
    apply or_else_truthy. reflexivity.
  - apply truthy_nonempty. unfold number_field.
    apply or_else_truthy. reflexivity.
Qed.

(** A rejected product request keeps the product and the draft the page
    had and sets the error "Failed to fetch product".  With a product on
    the page the banner shows it; on a first load, where there is none,
    the page is "Product not found" and the message is not displayed. *)
Theorem fetch_product_failure (id : string) (env : Env) (w : World State)
    (err : AxiosError) :
  network env (get_request id) = Rejected err ->
  let s' := st (snd (run (fetchProduct id) env w)) in
  error s' = "Failed to fetch product" /\
  loading s' = false /\
  product s' = product (st w) /\
  formData s' = formData (st w) /\
  isEditing s' = isEditing (st w) /\
  (product (st w) = None ->
   render s' = ProductNotFound /\ shown_error (render s') = None) /\
  (product (st w) <> None ->
   shown_error (render s') = Some "Failed to fetch product").
Proof.
  intros Hnet. cbv zeta. rewrite fetchProduct_run, Hnet.
  cbn [snd st].
  repeat split; try reflexivity.
  - unfold ProductDetail.render. cbn. rewrite H. reflexivity.
  - unfold ProductDetail.render. cbn. rewrite H. reflexivity.
  - intros Hp. unfold ProductDetail.render. cbn.
    destruct (product (st w)); [reflexivity|congruence].
Qed.

(** An input change sets the named field of the draft captured by the
    render to the typed value and keeps its other four fields; no other
    cell changes and nothing is requested. *)
Theorem input_change_sets_field (c : State) (f : FieldName)
    (value : string) (env : Env) (w : World State) :
  let w' := snd (run (handleInputChange c f value) env w) in
  field_value (formData (st w')) f = value /\
  (forall g, g <> f ->
     field_value (formData (st w')) g = field_value (formData c) g) /\
  product (st w') = product (st w) /\
  isEditing (st w') = isEditing (st w) /\
  imageFile (st w') = imageFile (st w) /\
  error (st w') = error (st w) /\
  trace w' = trace w.
Proof.
  cbv zeta. cbn.
  split; [destruct f; reflexivity|].
  split; [|repeat split].
  intros g Hg. destruct f, g; try reflexivity; congruence.
Qed.

(** Closing the file dialog without a file changes nothing.  Choosing a
    file stores it with its data URL as preview; the edit form then
    previews the chosen file, whatever image the product has, and the
    next submission carries the file. *)
Theorem image_choice (id : string) (env : Env) (w : World State) :
  run (handleImageChange None) env w = (Normal tt, w) /\
  (forall file p,
     let s' := st (snd (run (handleImageChange (Some file)) env w)) in
     imageFile s' = Some file /\
     imagePreview s' = Some (data_url file) /\
     In ("image", FFile file) (form (update_request id s')) /\
     (loading (st w) = false -> product (st w) = Some p ->
      isEditing (st w) = true -> data_url file <> "" ->
      shown_preview (render s') = Some (data_url file))).
Proof.
  split; [reflexivity|].
  intros file p. cbv zeta. cbn.
  repeat split.
  - unfold formDataToSend. cbn. tauto.
  - intros Hl Hp He Hd. unfold ProductDetail.render. cbn.
    rewrite Hl, Hp, He. cbn.
    unfold JS.truthy.
    destruct (String.eqb_spec (data_url file) ""); [contradiction|].
    cbn. unfold JS.or_str, JS.truthy.
    destruct (String.eqb_spec (data_url file) ""); [contradiction|].
    reflexivity.
Qed.

(** Cancel leaves edit mode and drops the chosen file and its preview,
    but not the text typed into the draft: opening the editor again
    shows the draft as it was left, not the product's values. *)
Theorem cancel_keeps_typed_draft (env : Env) (w : World State)
    (p : Product) :
  loading (st w) = false -> product (st w) = Some p ->
  let cancelled := snd (run cancelEditing env w) in
  let reopened := snd (run startEditing env cancelled) in
  shown_actions (render (st cancelled)) = true /\
  shown_form (render (st cancelled)) = None /\
  imageFile (st cancelled) = None /\
  imagePreview (st cancelled) = None /\
  formData (st cancelled) = formData (st w) /\
  (exists f, shown_form (render (st reopened)) = Some f /\
             draft f = formData (st w)) /\
  trace reopened = trace w.
Proof.
  intros Hl Hp. cbv zeta. unfold ProductDetail.render. cbn.
  rewrite Hl, Hp. cbn.
  repeat split. eexists. split; reflexivity.
Qed.

(** The update request is a POST to the product's URL whose multipart
    body depends only on the draft and the chosen file: the five text
    fields of the draft in order, the file under [image] exactly when
    one is chosen, and [_method = PUT] last. *)
Theorem update_request_body (id : string) (c : State) :
  method (update_request id c) = POST /\
  url (update_request id c) = "/products/" +:+ id /\
  (exists image_part,
     form (update_request id c)
     = ([ ("name", FText (field_value (formData c) name_field));
          ("category", FText (field_value (formData c) category_field));
          ("price", FText (field_value (formData c) price_field));
          ("rating", FText (field_value (formData c) rating_field));
          ("description",
           FText (field_value (formData c) description_field)) ]
        ++ image_part ++ [("_method", FText "PUT")])%list /\
     (imageFile c = None -> image_part = []) /\
     (forall file, imageFile c = Some file ->
                   image_part = [("image", FFile file)])) /\
  (forall v, In ("image", v) (form (update_request id c)) ->
             exists file, imageFile c = Some file /\ v = FFile file).
Proof.
  split; [reflexivity|]. split; [reflexivity|]. split.
  - exists (match imageFile c with
            | Some f => [("image", FFile f)]
            | None => []
            end).
    split; [reflexivity|]. split.
    + intros ->. reflexivity.
    + intros file ->. reflexivity.
  - intros v Hin. cbn [form update_request] in Hin.
    unfold formDataToSend in Hin. cbn in Hin.
    destruct (imageFile c) as [file|]; cbn in Hin.
    + exists file. split; [reflexivity|].
      repeat (destruct Hin as [Hin|Hin]; [congruence|]).
      contradiction.
    + repeat (destruct Hin as [Hin|Hin]; [congruence|]).
      contradiction.
Qed.

(** Saving a freshly fetched product without touching the form sends
    back the product's own name, category and description, and its
    price and rating in their text form. *)
Theorem unedited_draft_round_trip (id : string) (env : Env)
    (w : World State) (body : ProductBody) :
  network env (get_request id) = Fulfilled body ->
  imageFile (st w) = None ->
  let p := unwrap body in
  let s' := st (snd (run (fetchProduct id) env w)) in
  form (update_request id s')
  = [ ("name", FText (name p));
      ("category", FText (category p));
      ("price", FText (number_field toString (price p)));
      ("rating", FText (number_field toString (rating p)));
      ("description", FText (description p));
      ("_method", FText "PUT") ].
Proof.
  intros Hnet Hfile. cbv zeta. rewrite fetchProduct_run, Hnet.
  cbn [snd st]. cbn [form update_request]. unfold formDataToSend.
  cbn. rewrite Hfile. cbn. rewrite !or_str_empty. reflexivity.
Qed.

(** After a successful update the page ends up showing the re-fetched
    copy when the re-fetch succeeds; when the re-fetch is rejected, the
    product returned by the update stays, out of edit mode, under the
    error "Failed to fetch product". *)
Theorem update_then_refetch (id : string) (c : State) (env : Env)
    (w : World State) (saved : ProductBody) :
  network env (update_request id c) = Fulfilled saved ->
  let s' := st (snd (run (handleUpdate id c) env w)) in
  (forall fresh, network env (get_request id) = Fulfilled fresh ->
     product s' = Some (unwrap fresh) /\
     formData s' = draft_of (unwrap fresh) /\
     error s' = "" /\ loading s' = false /\ isEditing s' = false) /\
  (forall err, network env (get_request id) = Rejected err ->
     product s' = Some (unwrap saved) /\
     formData s' = formData (st w) /\
     error s' = "Failed to fetch product" /\
     loading s' = false /\ isEditing s' = false /\
     shown_error (render s') = Some "Failed to fetch product" /\
     shown_image (render s')
     = Some (getImageUrl VITE_API_BASE_URL (image_url (unwrap saved))
                         (image (unwrap saved)))).
Proof.
  intros Hnet. cbv zeta.
  assert (Hrun : run (handleUpdate id c) env w
                 = run (fetchProduct id) env
                     {| st := setImagePreview None
                                (setImageFile None
                                   (setIsEditing false
                                      (setProduct (Some (unwrap saved))
                                         (setError "" (st w)))));
                        trace := trace w ++ [ERequest (update_request id c)]
                     |}).
  { pose proof (fetchProduct_returns toString id env
                  {| st := setImagePreview None
                             (setImageFile None
                                (setIsEditing false
                                   (setProduct (Some (unwrap saved))
                                      (setError "" (st w)))));
                     trace := trace w ++ [ERequest (update_request id c)]
                  |}) as Hret.
    unfold run in *. unfold ProductDetail.handleUpdate.
    unfold try_catch, bind, set, await_request.
    cbn [st trace]. rewrite Hnet. cbn [st trace].
    match goal with
    | |- (let (_, _) := ?x in _) = _ => destruct x as [[[]|e] w2]
    end; [reflexivity|discriminate]. }
  rewrite Hrun, fetchProduct_run.
  split.
  - intros fresh ->. cbn [snd st]. repeat split.
  - intros err ->. cbn [snd st]. repeat split.
Qed.

(** The page has three exclusive faces.  While loading, and when no
    product is held, neither the error banner nor any button or form is
    on screen.  With a product, the Edit and Delete buttons and the
    large image are on screen exactly in view mode, the form exactly in
    edit mode. *)
Theorem render_modes (s : State) :
  (loading s = true -> render s = LoadingProduct) /\
  (loading s = false -> product s = None -> render s = ProductNotFound) /\
  (loading s = true \/ product s = None ->
   shown_error (render s) = None /\ shown_actions (render s) = false /\
   shown_form (render s) = None /\ shown_image (render s) = None) /\
  (loading s = false -> product s <> None ->
   shown_actions (render s) = negb (isEditing s) /\
   (is_Some (shown_image (render s)) <-> isEditing s = false) /\
   (is_Some (shown_form (render s)) <-> isEditing s = true)).
Proof.
  unfold ProductDetail.render.
  split; [intros ->; reflexivity|].
  split; [intros -> ->; reflexivity|].
  split.
  - intros [->| ->]; [repeat split|].
    destruct (loading s); repeat split.
  - intros -> Hp. destruct (product s) as [p|]; [|congruence].
    destruct (isEditing s); cbn; repeat split;
      try (intros _; eexists; reflexivity);
      try (intros [x Hx]; discriminate);
      try discriminate.
Qed.

End ProductDetailBehaviour.

(* ================================================================== *)
(** ** Resolution of a stored image path *)
(* ================================================================== *)

Section StoredPathResolution.

(** For a product without absolute URL and with the stored path [path],
    the detail view resolves the path against [http://localhost:8000]
    when the variable is unset, against the configured base URL itself
    when it contains no [/api] at all, and against [b] when the base URL
    is [b/api] and [/api] occurs nowhere before that suffix. *)
Theorem stored_path_resolution (env imageUrl imagePath : option string)
    (path : string) :
  JS.when_truthy imageUrl = None ->
  JS.when_truthy imagePath = Some path ->
  (env = None ->
   ProductDetail.getImageUrl env imageUrl imagePath
   = "http://localhost:8000/storage/" +:+ path) /\
  (forall base, env = Some base -> base <> "" ->
     String.index 0 "/api" base = None ->
     ProductDetail.getImageUrl env imageUrl imagePath
     = base +:+ "/storage/" +:+ path) /\
  (forall b, env = Some (b +:+ "/api") -> b <> "" ->
     String.index 0 "/api" (b +:+ "/api") = Some (String.length b) ->
     ProductDetail.getImageUrl env imageUrl imagePath
     = b +:+ "/storage/" +:+ path).
Proof.
  intros Hu Hp. unfold ProductDetail.getImageUrl. rewrite Hu, Hp.
  split; [|split].
  - intros ->. reflexivity.
  - intros base -> Hne Hidx. cbn [fmap option_fmap option_map].
    unfold JS.replace. rewrite Hidx.
    rewrite (or_else_some base _ Hne). reflexivity.
  - intros b -> Hne Hidx. cbn [fmap option_fmap option_map].
    rewrite (replace_api_suffix b Hidx).
    rewrite (or_else_some b _ Hne). reflexivity.
Qed.

(** The dashboard card and the detail view show the same picture for a
    stored path when the API base URL is unset or is the development
    default: both resolve it against [http://localhost:8000]. *)
Theorem card_and_detail_agree (env imageUrl image : option string)
    (path : string) :
  env = None \/ env = Some "http://localhost:8000/api" ->
  JS.when_truthy imageUrl = None ->
  JS.when_truthy image = Some path ->
  ProductDetail.getImageUrl env imageUrl image = Dashboard.getImageUrl image
  /\ Dashboard.getImageUrl image = "http://localhost:8000/storage/" +:+ path.
Proof.
  intros Henv Hu Hi.
  unfold ProductDetail.getImageUrl, Dashboard.getImageUrl.
  rewrite Hu, Hi.
  destruct Henv as [-> | ->]; split; reflexivity.
Qed.

End StoredPathResolution.

Lemma stored_path_resolution_witness :
  ProductDetail.getImageUrl None None (Some "abc.png")
  = "http://localhost:8000/storage/abc.png" /\
  ProductDetail.getImageUrl (Some "https://cdn.example.com") None
                            (Some "abc.png")
  = "https://cdn.example.com/storage/abc.png" /\
  ProductDetail.getImageUrl (Some "https://shop.example.com/api") None
                            (Some "abc.png")
  = "https://shop.example.com/storage/abc.png".
Proof.
  split; [|split].
  - exact (proj1 (stored_path_resolution None None (Some "abc.png")
                    "abc.png" eq_refl eq_refl) eq_refl).
  - refine (proj1 (proj2 (stored_path_resolution
                    (Some "https://cdn.example.com") None (Some "abc.png")
                    "abc.png" eq_refl eq_refl))
              "https://cdn.example.com" eq_refl _ eq_refl).
    discriminate.
  - refine (proj2 (proj2 (stored_path_resolution
                    (Some "https://shop.example.com/api") None
                    (Some "abc.png") "abc.png" eq_refl eq_refl))
              "https://shop.example.com" eq_refl _ eq_refl).
    discriminate.
Defined.

Lemma card_and_detail_agree_witness :
  ProductDetail.getImageUrl (Some "http://localhost:8000/api") None
                            (Some "mug.png")
  = Dashboard.getImageUrl (Some "mug.png").
Proof.
  exact (proj1 (card_and_detail_agree (Some "http://localhost:8000/api")
                  None (Some "mug.png") "mug.png"
                  (or_intror eq_refl) eq_refl eq_refl)).
Defined.

(* ================================================================== *)
(** ** The routes outside the guard *)
(* ================================================================== *)

Section UnguardedRoutes.
Import Routing.

(** The two entries of the routing table outside the guard do not look
    at the authentication context: /login mounts the login page and /
    redirects to /dashboard, replacing history, also while the context
    is loading and also with a token present. *)
Theorem unguarded_routes_ignore_auth (r : RouteConfig)
    (auth : AuthContextValue) :
  In r routes -> guarded_path (path r) = false ->
  (path r = "/login" /\ renderElement auth (element r) = Mounted Login) \/
  (path r = "/" /\ renderElement auth (element r) = Redirect "/dashboard" true).
Proof.
  unfold routes. simpl.
  intros [<- | [<- | [<- | [<- | []]]]] Hg; simpl in Hg;
    try discriminate; [left|right]; split; reflexivity.
Qed.

End UnguardedRoutes.

Lemma unguarded_routes_ignore_auth_witness :
  Routing.renderElement
    {| Routing.token := Some "secret"; Routing.isLoading := true |}
    (Routing.PageElement Routing.Login)
  = Routing.Mounted Routing.Login.
Proof.
  pose (r := {| Routing.path := "/login";
                Routing.element := Routing.PageElement Routing.Login |}).
  assert (Hin : In r Routing.routes) by (simpl; auto).
  destruct (unguarded_routes_ignore_auth
              r {| Routing.token := Some "secret"; Routing.isLoading := true |}
              Hin eq_refl) as [[_ H] | [Hp _]].
  - exact H.
  - discriminate Hp.
Defined.

(* ================================================================== *)
(** ** The detail page on concrete products *)
(* ================================================================== *)

Lemma fetch_product_success_witness :
  let s' := st (snd (run (ProductDetail.fetchProduct Examples.toString "8")
                         (Examples.accepting Examples.poster)
                         {| st := ProductDetail.initial; trace := [] |})) in
  ProductDetail.product s' = Some Examples.poster /\
  ProductDetail.field_value (ProductDetail.formData s')
                            ProductDetail.name_field = "Poster" /\
  ProductDetail.loading s' = false.
Proof.
  cbv zeta.
  destruct (fetch_product_success Examples.toString "8"
              (Examples.accepting Examples.poster)
              {| st := ProductDetail.initial; trace := [] |}
              (ProductDetail.Wrapped Examples.poster) eq_refl)
    as (Hp & Hn & _ & _ & _ & _ & _ & Hl & _).
  split; [exact Hp|]. split; [exact Hn | exact Hl].
Defined.

Lemma fetch_product_failure_witness :
  let first_load :=
    st (snd (run (ProductDetail.fetchProduct Examples.toString "7")
                 Examples.rejecting
                 {| st := ProductDetail.initial; trace := [] |})) in
  let reload :=
    st (snd (run (ProductDetail.fetchProduct Examples.toString "7")
                 Examples.rejecting
                 {| st := Examples.viewing Examples.lamp; trace := [] |})) in
  ProductDetail.render Examples.toFixed Examples.toLocaleDateString None
                       first_load
  = ProductDetail.ProductNotFound /\
  ProductDetail.product reload = Some Examples.lamp /\
  ProductDetail.shown_error
    (ProductDetail.render Examples.toFixed Examples.toLocaleDateString None
                          reload)
  = Some "Failed to fetch product".
Proof.
  cbv zeta.
  destruct (fetch_product_failure Examples.toString Examples.toFixed
              Examples.toLocaleDateString None "7" Examples.rejecting
              {| st := ProductDetail.initial; trace := [] |}
              Examples.validation_error eq_refl)
    as (_ & _ & _ & _ & _ & Hnone & _).
  destruct (fetch_product_failure Examples.toString Examples.toFixed
              Examples.toLocaleDateString None "7" Examples.rejecting
              {| st := Examples.viewing Examples.lamp; trace := [] |}
              Examples.validation_error eq_refl)
    as (_ & _ & Hprod & _ & _ & _ & Hsome).
  split; [exact (proj1 (Hnone eq_refl))|].
  split; [exact Hprod|].
  apply Hsome. discriminate.
Defined.

Lemma input_change_sets_field_witness :
  let c := Examples.editing Examples.lamp in
  let w' := snd (run (ProductDetail.handleInputChange
                        c ProductDetail.price_field "25")
                     Examples.rejecting {| st := c; trace := [] |}) in
  ProductDetail.field_value (ProductDetail.formData (st w'))
                            ProductDetail.price_field = "25" /\
  ProductDetail.field_value (ProductDetail.formData (st w'))
                            ProductDetail.name_field = "Lamp".
Proof.
  cbv zeta.
  destruct (input_change_sets_field (Examples.editing Examples.lamp)
              ProductDetail.price_field "25" Examples.rejecting
              {| st := Examples.editing Examples.lamp; trace := [] |})
    as (Hset & Hother & _).
  split; [exact Hset|].
  rewrite (Hother ProductDetail.name_field); [reflexivity|discriminate].
Defined.

Lemma image_choice_witness :
  let w := {| st := Examples.editing Examples.poster; trace := [] |} in
  let s' := st (snd (run (ProductDetail.handleImageChange
                            (Some Examples.photo))
                         Examples.rejecting w)) in
  ProductDetail.shown_preview
    (ProductDetail.render Examples.toFixed Examples.toLocaleDateString None s')
  = Some "data:image/jpeg;base64,AAAA".
Proof.
  cbv zeta.
  destruct (proj2 (image_choice Examples.toFixed Examples.toLocaleDateString
                     None "8" Examples.rejecting
                     {| st := Examples.editing Examples.poster; trace := [] |})
              Examples.photo Examples.poster)
    as (_ & _ & _ & Hshown).
  apply Hshown; [reflexivity | reflexivity | reflexivity | discriminate].
Defined.

Lemma cancel_keeps_typed_draft_witness :
  let c := Examples.editing Examples.lamp in
  let typed := snd (run (ProductDetail.handleInputChange
                           c ProductDetail.name_field "Desk lamp")
                        Examples.rejecting {| st := c; trace := [] |}) in
  let cancelled := snd (run ProductDetail.cancelEditing
                            Examples.rejecting typed) in
  let reopened := snd (run ProductDetail.startEditing
                           Examples.rejecting cancelled) in
  exists f,
    ProductDetail.shown_form
      (ProductDetail.render Examples.toFixed Examples.toLocaleDateString None
                            (st reopened)) = Some f /\
    ProductDetail.form_name (ProductDetail.draft f) = "Desk lamp".
Proof.
  cbv zeta.
  destruct (cancel_keeps_typed_draft Examples.toFixed
              Examples.toLocaleDateString None Examples.rejecting
              (snd (run (ProductDetail.handleInputChange
                           (Examples.editing Examples.lamp)
                           ProductDetail.name_field "Desk lamp")
                        Examples.rejecting
                        {| st := Examples.editing Examples.lamp;
                           trace := [] |}))
              Examples.lamp eq_refl eq_refl)
    as (_ & _ & _ & _ & _ & (f & Hf & Hd) & _).
  exists f. split; [exact Hf|]. rewrite Hd. reflexivity.
Defined.

Lemma update_request_body_witness :
  let chosen := ProductDetail.setImageFile (Some Examples.photo)
                  (Examples.editing Examples.lamp) in
  (forall v, In ("image", v)
                (form (ProductDetail.update_request
                         "7" (Examples.editing Examples.lamp))) -> False) /\
  In ("image", FFile Examples.photo)
     (form (ProductDetail.update_request "7" chosen)).
Proof.
  cbv zeta. split.
  - intros v Hin.
    destruct (proj2 (proj2 (proj2
               (update_request_body "7" (Examples.editing Examples.lamp))))
               v Hin) as (file & Hfile & _).
    discriminate Hfile.
  - destruct (proj1 (proj2 (proj2
               (update_request_body "7"
                  (ProductDetail.setImageFile (Some Examples.photo)
                     (Examples.editing Examples.lamp))))))
      as (part & Hform & _ & Hsome).
    rewrite Hform, (Hsome Examples.photo eq_refl).
    simpl. tauto.
Defined.

Lemma unedited_draft_round_trip_witness :
  let s' := st (snd (run (ProductDetail.fetchProduct Examples.toString "7")
                         (Examples.accepting Examples.lamp)
                         {| st := ProductDetail.initial; trace := [] |})) in
  form (ProductDetail.update_request "7" s')
  = [ ("name", FText "Lamp"); ("category", FText "Home & Garden");
      ("price", FText "20"); ("rating", FText "4");
      ("description", FText ""); ("_method", FText "PUT") ].
Proof.
  cbv zeta.
  rewrite (unedited_draft_round_trip Examples.toString "7"
             (Examples.accepting Examples.lamp)
             {| st := ProductDetail.initial; trace := [] |}
             (ProductDetail.Wrapped Examples.lamp) eq_refl eq_refl).
  vm_compute. reflexivity.
Defined.

Lemma update_then_refetch_witness :
  let c := Examples.editing Examples.lamp in
  let kept := st (snd (run (ProductDetail.handleUpdate Examples.toString "7" c)
                           (Examples.saving_only Examples.poster)
                           {| st := c; trace := [] |})) in
  let fresh := st (snd (run (ProductDetail.handleUpdate Examples.toString "7" c)
                            (Examples.accepting Examples.poster)
                            {| st := c; trace := [] |})) in
  ProductDetail.product kept = Some Examples.poster /\
  ProductDetail.error kept = "Failed to fetch product" /\
  ProductDetail.product fresh = Some Examples.poster /\
  ProductDetail.error fresh = "".
Proof.
  cbv zeta.
  destruct (proj2 (update_then_refetch Examples.toString Examples.toFixed
                     Examples.toLocaleDateString None
                     "7" (Examples.editing Examples.lamp)
                     (Examples.saving_only Examples.poster)
                     {| st := Examples.editing Examples.lamp; trace := [] |}
                     (ProductDetail.Bare Examples.poster) eq_refl)
              Examples.validation_error eq_refl)
    as (Hp & _ & He & _).
  destruct (proj1 (update_then_refetch Examples.toString Examples.toFixed
                     Examples.toLocaleDateString None
                     "7" (Examples.editing Examples.lamp)
                     (Examples.accepting Examples.poster)
                     {| st := Examples.editing Examples.lamp; trace := [] |}
                     (ProductDetail.Wrapped Examples.poster) eq_refl)
              (ProductDetail.Wrapped Examples.poster) eq_refl)
    as (Hp' & _ & He' & _).
  split; [exact Hp|]. split; [exact He|]. split; [exact Hp' | exact He'].
Defined.

Lemma render_modes_witness :
  ProductDetail.render Examples.toFixed Examples.toLocaleDateString None
                       ProductDetail.initial
  = ProductDetail.LoadingProduct /\
  ProductDetail.shown_actions
    (ProductDetail.render Examples.toFixed Examples.toLocaleDateString None
                          (Examples.editing Examples.lamp)) = false /\
  is_Some (ProductDetail.shown_image
    (ProductDetail.render Examples.toFixed Examples.toLocaleDateString None
                          (Examples.viewing Examples.lamp))).
Proof.
  split; [|split].
  - exact (proj1 (render_modes Examples.toFixed Examples.toLocaleDateString
                    None ProductDetail.initial) eq_refl).
  - destruct (proj2 (proj2 (proj2
               (render_modes Examples.toFixed Examples.toLocaleDateString
                  None (Examples.editing Examples.lamp)))) eq_refl)
      as (Hact & _); [discriminate|].
    exact Hact.
  - destruct (proj2 (proj2 (proj2
               (render_modes Examples.toFixed Examples.toLocaleDateString
                  None (Examples.viewing Examples.lamp)))) eq_refl)
      as (_ & Himg & _); [discriminate|].
    apply Himg. reflexivity.
Defined.

(* ================================================================== *)
(** ** From an input of the dashboard to the next request *)
(* ================================================================== *)

Section DashboardNavigation.
Import Dashboard.
Context {Num : Type}.

Abbreviation State := (@State Num).
Abbreviation Env := (Env (@ProductsResponse Num)).

Lemma useEffect_run (s s' : State) (env : Env) (w : World State) :
  (deps s = deps s' -> run (useEffect (Some s) s') env w = (Normal tt, w)) /\
  (deps s <> deps s' ->
   run (useEffect (Some s) s') env w = run (fetchProducts s') env w).
Proof.
  unfold run, useEffect. split; intros H.
  - rewrite bool_decide_eq_true_2 by exact H. reflexivity.
  - rewrite bool_decide_eq_false_2 by exact H. reflexivity.
Qed.

(** A change of a filter input shows the new value in that input and
    leaves the other five alone.  The effect then fetches, asking for
    page 1, unless the input already had that value on page 1, in which
    case nothing is requested. *)
Theorem filter_change_triggers_request (i : FilterInput) (value : string)
    (env env' : Env) (w : World State) :
  let s := st w in
  let w' := snd (run (onChange i value) env w) in
  input_value (st w') i = value /\
  (forall j, j <> i -> input_value (st w') j = input_value s j) /\
  (value = input_value s i /\ currentPage s = 1 ->
   run (useEffect (Some s) (st w')) env' w' = (Normal tt, w')) /\
  (value <> input_value s i \/ currentPage s <> 1 ->
   run (useEffect (Some s) (st w')) env' w'
   = run (fetchProducts (st w')) env' w' /\
   params (products_request (st w')) !! "page" = Some (QNum 1)).
Proof.
  cbv zeta.
  split; [destruct i; reflexivity|].
  split; [intros j Hj; destruct i, j; try reflexivity; congruence|].
  split.
  - intros [Hv Hp].
    apply (proj1 (useEffect_run _ _ _ _)).
    destruct i; cbn in *; unfold deps; cbn; rewrite Hv, Hp; reflexivity.
  - intros Hne. split.
    + apply (proj2 (useEffect_run _ _ _ _)).
      intros Heq. apply deps_cells in Heq.
      destruct Heq as (H1 & H2 & H3 & H4 & H5 & H6 & H7).
      destruct i; cbn in *; destruct Hne as [Hne|Hne]; congruence.
    + pose proof (build_params_lookup
                    (st (snd (run (onChange i value) env w)))) as Hl.
      cbv zeta in Hl. destruct Hl as [Hpage _].
      cbn [params products_request]. rewrite Hpage.
      destruct i; reflexivity.
Qed.

(** On a current page that is a safe integer, Next asks for the page
    after the one on screen and Previous for the page before it, with
    the filters unchanged; Previous after Next is back on the page it
    started from, with the request it started from. *)
Theorem page_buttons_request (env : Env) (w : World State) :
  JS.isSafeInteger (currentPage (st w)) ->
  let s := st w in
  let forward := snd (run (nextPage s) env w) in
  let back := snd (run (previousPage (st forward)) env forward) in
  products_request (st forward)
  = products_request (setCurrentPage (currentPage s + 1) s) /\
  params (products_request (st forward)) !! "page"
  = Some (QNum (currentPage s + 1)) /\
  (forall i, input_value (st forward) i = input_value s i) /\
  deps (st forward) <> deps s /\
  deps (st back) = deps s /\
  products_request (st back) = products_request s /\
  - 2 ^ 53 <= currentPage (st forward) <= 2 ^ 53.
Proof.
  intros Hsafe. cbv zeta.
  assert (Hback : deps (st (snd (run (previousPage
                     (st (snd (run (nextPage (st w)) env w)))) env
                     (snd (run (nextPage (st w)) env w))))) = deps (st w)).
  { unfold deps. cbn. repeat f_equal. lia. }
  split; [reflexivity|].
  split.
  { pose proof (build_params_lookup
                  (st (snd (run (nextPage (st w)) env w)))) as Hl.
    cbv zeta in Hl. exact (proj1 Hl). }
  split; [intros i; destruct i; reflexivity|].
  split.
  { intros Heq. apply deps_cells in Heq.
    destruct Heq as (_ & _ & _ & _ & _ & _ & Heq). cbn in Heq. lia. }
  split; [exact Hback|].
  split; [apply products_request_of_deps; exact Hback|].
  unfold JS.isSafeInteger, JS.MAX_SAFE_INTEGER in Hsafe. cbn. lia.
Qed.

End DashboardNavigation.

Lemma filter_change_triggers_request_witness :
  let w := {| st := Examples.browsing; trace := [] |} in
  let w' := snd (run (Dashboard.onChange Dashboard.CategorySelect "Books")
                     Examples.backend_down w) in
  requests (trace (snd (run (Dashboard.useEffect (Some Examples.browsing)
                                                   (st w'))
                            Examples.backend_down w')))
  = [Dashboard.products_request (st w')] /\
  params (Dashboard.products_request (st w')) !! "page" = Some (QNum 1).
Proof.
  cbv zeta.
  destruct (filter_change_triggers_request Dashboard.CategorySelect "Books"
              Examples.backend_down Examples.backend_down
              {| st := Examples.browsing; trace := [] |})
    as (_ & _ & _ & Hfetch).
  destruct Hfetch as [Hrun Hpage]; [left; discriminate|].
  split; [|exact Hpage].
  etransitivity;
    [exact (f_equal (fun x => requests (trace (snd x))) Hrun)|].
  reflexivity.
Defined.

Lemma page_buttons_request_witness :
  let w := {| st := Examples.browsing; trace := [] |} in
  let forward := snd (run (Dashboard.nextPage Examples.browsing)
                          Examples.backend_down w) in
  let back := snd (run (Dashboard.previousPage (st forward))
                       Examples.backend_down forward) in
  params (Dashboard.products_request (st forward)) !! "page"
  = Some (QNum 4) /\
  Dashboard.products_request (st back)
  = Dashboard.products_request Examples.browsing.
Proof.
  cbv zeta.
  assert (Hsafe : JS.isSafeInteger (Dashboard.currentPage Examples.browsing))
    by (unfold JS.isSafeInteger, JS.MAX_SAFE_INTEGER; simpl; lia).
  destruct (page_buttons_request Examples.backend_down
              {| st := Examples.browsing; trace := [] |} Hsafe)
    as (_ & Hpage & _ & _ & _ & Hreq & _).
  split; [exact Hpage | exact Hreq].
Defined.
